(** * tiled3D: vectors, matrices, meshes and the scene pipeline

    A shallow embedding of the JavaScript sources [vector.js], [matrices.js],
    [geometry.js], [mesh.js] and [scene.js].

    JavaScript numbers are IEEE-754 binary64 values; they are modelled by
    Rocq's primitive [float], whose operations are the same binary64
    operations with round-to-nearest-even.  A property that may be absent
    from an object ([undefined]) is an [option]. *)

From Stdlib Require Import ZArith List String Ascii Bool Lia Permutation.
From Stdlib Require Import Uint63 Floats.
Import ListNotations.

Local Open Scope float_scope.

(** ** Host semantics: numbers, [undefined], exceptions *)

Module Js.

(** [ToNumber] of a value that is a number or [undefined]. *)
Definition to_number (o : option float) : float :=
  match o with
  | Some x => x
  | None => nan
  end.

(** [ToBoolean] on numbers: [+0], [-0] and [NaN] are falsy. *)
Definition truthy (x : float) : bool :=
  negb (is_zero x || is_nan x).

(** [v || d] where [v] is a number or [undefined]. *)
Definition or_else (o : option float) (d : float) : float :=
  match o with
  | Some x => if truthy x then x else d
  | None => d
  end.

(** A parameter with a default value: only [undefined] selects it. *)
Definition default (o : option float) (d : float) : float :=
  match o with
  | Some x => x
  | None => d
  end.

(** [a != b] on numbers ([NaN != b] is true). *)
Definition neq (a b : float) : bool := negb (a =? b).

(** [Math.hypot].  ECMA-262 leaves the precision to the host; this is
    V8's algorithm (Chrome, Node.js).  The largest absolute value [max]
    of the arguments that are not [NaN] is found first; an infinite
    argument gives [Infinity], else a [NaN] argument gives [NaN], else
    [max == 0] gives [0]; otherwise the squares of the arguments divided
    by [max] are added with Kahan's compensated summation, so that no
    intermediate value overflows, and the result is [sqrt(sum) * max]. *)
Definition hypot_max (args : list float) : float :=
  fold_left
    (fun max value =>
       if is_nan value then max
       else if max <? abs value then abs value else max)
    args 0.

Definition hypot_sum (max : float) (args : list float) : float :=
  fst (fold_left
         (fun '(sum, compensation) value =>
            let n := abs value / max in
            let summand := n * n - compensation in
            let preliminary := sum + summand in
            (preliminary, (preliminary - sum) - summand))
         args (0, 0)).

Definition hypot (args : list float) : float :=
  let max := hypot_max args in
  if max =? infinity then infinity
  else if existsb is_nan args then nan
  else if max =? 0 then 0
  else sqrt (hypot_sum max args) * max.

(** Rounding of a binary64 value to binary32, as done by every store
    into a [Float32Array]; the result is again held as a binary64. *)
Definition fround (x : float) : float :=
  match Prim2SF x with
  | S754_finite s m e => SF2Prim (binary_round 24 128 s m e)
  | _ => x
  end.

(** The integer a number denotes when used as an array index: [arr[k]]
    reads an element only if [k] is a non-negative integer. *)
Definition to_index (k : float) : option Z :=
  match Prim2SF k with
  | S754_zero _ => Some 0%Z
  | S754_finite false m e =>
      if (0 <=? e)%Z then Some (Z.pos m * 2 ^ e)%Z
      else if (Z.pos m mod 2 ^ (- e) =? 0)%Z then Some (Z.pos m / 2 ^ (- e))%Z
      else None
  | _ => None
  end.

(** [arr[k]] on an ordinary array; [None] is [undefined]. *)
Definition index {A : Type} (arr : list A) (k : float) : option A :=
  match to_index k with
  | Some i =>
      if (i <? Z.of_nat (List.length arr))%Z then nth_error arr (Z.to_nat i)
      else None
  | None => None
  end.

Inductive Exception : Type :=
| TypeError (msg : string)
| Error (msg : string).

(** The completion of a call: a value, or a thrown exception. *)
Inductive completion (A : Type) : Type :=
| Normal (a : A)
| Throw (e : Exception).
Arguments Normal {A} a.
Arguments Throw {A} e.

End Js.

Import Js.

(** ** vector.js *)

Inductive VType : Type := D2 | D3.

(** The property names ["x"], ["y"], ["z"]. *)
Inductive Component : Type := Cx | Cy | Cz.

Module Vector.

(** A vector object: its [type] tag, the properties [x], [y], [w], and
    the property [z], which a 2-dimensional vector does not have. *)
Record t : Type := mk {
  type : VType;
  x : float;
  y : float;
  z : option float;
  w : float
}.

(** [this.components] *)
Definition components (this : t) : list Component :=
  match type this with
  | D2 => [Cx; Cy]
  | D3 => [Cx; Cy; Cz]
  end.

(** [v[i]] for a component name [i] *)
Definition get (v : t) (i : Component) : option float :=
  match i with
  | Cx => Some (x v)
  | Cy => Some (y v)
  | Cz => z v
  end.

(** [v[i] = a] *)
Definition set (v : t) (i : Component) (a : float) : t :=
  match i with
  | Cx => mk (type v) a (y v) (z v) (w v)
  | Cy => mk (type v) (x v) a (z v) (w v)
  | Cz => mk (type v) (x v) (y v) (Some a) (w v)
  end.

(** [new Vector2(x, y, w)]: the base constructor stores [args[i] || 0]. *)
Definition Vector2 (x y w : float) : t :=
  mk D2 (or_else (Some x) 0) (or_else (Some y) 0) None w.

(** [new Vector3(x, y, z, w)] *)
Definition Vector3 (x y z w : float) : t :=
  mk D3 (or_else (Some x) 0) (or_else (Some y) 0)
     (Some (or_else (Some z) 0)) w.

(** [this.createVector()]: [new Vector2()] or [new Vector3()], with the
    constructors' default arguments. *)
Definition createVector (this : t) : t :=
  match type this with
  | D2 => Vector2 0 0 1
  | D3 => Vector3 0 0 0 1
  end.

(** [add(vec)] *)
Definition add (this vec : t) : t :=
  fold_left
    (fun res i => set res i (to_number (get this i) + to_number (get vec i)))
    (components this) (createVector this).

(** [sub(vec)] *)
Definition sub (this vec : t) : t :=
  fold_left
    (fun res i => set res i (to_number (get this i) - to_number (get vec i)))
    (components this) (createVector this).

(** [scale(s)] *)
Definition scale (this : t) (s : float) : t :=
  fold_left
    (fun res i => set res i (to_number (get this i) * s))
    (components this) (createVector this).

(** [mult(v)] *)
Definition mult (this v : t) : t :=
  fold_left
    (fun res i => set res i (to_number (get this i) * to_number (get v i)))
    (components this) (createVector this).

(** [dot(vec)] *)
Definition dot (this vec : t) : float :=
  fold_left
    (fun sum i => sum + to_number (get this i) * to_number (get vec i))
    (components this) 0.

(** The getter [magnitude], defined by each of the two classes. *)
Definition magnitude (this : t) : float :=
  match type this with
  | D2 => hypot [x this; y this]
  | D3 => hypot [x this; y this; to_number (z this)]
  end.

(** [normalise()]: the getter [magnitude] is read again for every
    component, on the vector as updated so far. *)
Definition normalise (this : t) : t :=
  if neq (magnitude this) 0 then
    fold_left
      (fun this i => set this i (to_number (get this i) / magnitude this))
      (components this) this
  else this.

(** [toArray()] *)
Definition toArray (this : t) : list (option float) :=
  map (get this) (components this) ++ [Some (w this)].

(** The getter [normal] of [Vector2]. *)
Definition normal (this : t) : t :=
  let res := createVector this in
  let res := set res Cx (- y this) in
  set res Cy (x this).

(** [cross(vec)] of [Vector3]. *)
Definition cross (this vec : t) : t :=
  let res := createVector this in
  let res := set res Cx (y this * to_number (z vec)
                         - to_number (z this) * y vec) in
  let res := set res Cy (to_number (z this) * x vec
                         - to_number (z this) * to_number (z vec)) in
  set res Cz (x this * y vec - y this * x vec).

End Vector.

Definition Vector2 := Vector.Vector2.
Definition Vector3 := Vector.Vector3.

(** ** matrices.js *)

(** A [Float32Array]: a fixed-length buffer whose elements are binary32
    values.  Reading past the end gives [undefined]; writing past the end
    is ignored; every store rounds to binary32. *)
Module Float32Array.

Definition t : Type := list float.

Definition get (m : t) (k : nat) : option float := nth_error m k.

Fixpoint set (m : t) (k : nat) (a : float) : t :=
  match m, k with
  | [], _ => []
  | _ :: tl, O => fround a :: tl
  | hd :: tl, S k' => hd :: set tl k' a
  end.

(** [m.length] as a number *)
Definition length (m : t) : float :=
  of_uint63 (Uint63.of_Z (Z.of_nat (List.length m))).

(** [m[k]] for an index computed as a number: [undefined] below zero. *)
Definition getZ (m : t) (k : Z) : option float :=
  if (k <? 0)%Z then None else get m (Z.to_nat k).

Fixpoint mapi (f : float -> nat -> float) (m : t) (i : nat) : t :=
  match m with
  | [] => []
  | val :: tl => fround (f val i) :: mapi f tl (S i)
  end.

(** [m.map((val, i) => f(val, i))]: a new typed array of the same length. *)
Definition map (f : float -> nat -> float) (m : t) : t := mapi f m 0.

End Float32Array.

(** The indices visited by [for (let i = 0; i < size; i++)] when the bound
    is the number [len / length] for a buffer of [len] elements: every
    natural number below the bound (at most [len] of them). *)
Definition loop_range (size : float) (len : nat) : list nat :=
  filter (fun i => of_uint63 (Uint63.of_Z (Z.of_nat i)) <? size) (seq 0 (S len)).

(** The object returned by [Mat(length)]; it is built for [length = 3]
    ([Mat3x3]) and [length = 4] ([Mat4x4]). *)
Section Mat.

Variable length : nat.

Definition flength : float := of_uint63 (Uint63.of_Z (Z.of_nat length)).

(** [mat.create(...args)] *)
Definition create (args : list float) : Float32Array.t :=
  map (fun i => fround (or_else (nth_error args i) 0))
      (seq 0 (length * length)).

(** [mat.diagonal(...arg)] *)
Definition diagonal (arg : list float) : Float32Array.t :=
  fold_left
    (fun m i => Float32Array.set m (i * length + i) (or_else (nth_error arg i) 0))
    (seq 0 length) (create []).

(** [mat.identity()] *)
Definition identity : Float32Array.t := diagonal [1; 1; 1].

(** [mat.clone(m)] *)
Definition clone (m : Float32Array.t) : Float32Array.t := create m.

(** [mat.multiplyMatrix(m1, m2)] *)
Definition multiplyMatrix (m1 m2 : Float32Array.t)
  : completion Float32Array.t :=
  let column := Float32Array.length m1 / flength in
  let row := Float32Array.length m2 / flength in
  let size := column in
  if neq column row then
    Throw (TypeError "Left hand column must be equal to right hand row")
  else
    let idx := loop_range size (List.length m1) in
    Normal
      (fold_left
         (fun copy i =>
            fold_left
              (fun copy j =>
                 let sum :=
                   fold_left
                     (fun sum k =>
                        let a := to_number (Float32Array.get m1 (i * length + k)) in
                        let b := to_number (Float32Array.get m2 (k * length + j)) in
                        sum + a * b)
                     idx 0 in
                 Float32Array.set copy (i * length + j) sum)
              idx copy)
         idx (create [])).

(** [mat.multiplyVector(m, vec)].  Every [Vector.t] is an instance of
    [Vector2] or of [Vector3], so the first test never throws; the results
    [res[0]] to [res[row - 1]] are all defined ([row] is 3 or 4). *)
Definition multiplyVector (m : Float32Array.t) (vec : Vector.t)
  : completion Vector.t :=
  let column := Float32Array.length m / flength in
  let row := S (List.length (Vector.components vec)) in
  if neq column (of_uint63 (Uint63.of_Z (Z.of_nat row))) then
    Throw (TypeError "Left hand column must be equal to right hand row")
  else
    let v := Vector.toArray vec in
    let res :=
      map (fun i =>
             fold_left
               (fun sum j =>
                  sum + to_number (Float32Array.get m (i * length + j))
                        * to_number (nth j v None))
               (loop_range column (List.length m)) 0)
          (seq 0 row) in
    Normal
      (if Nat.eqb row 4
       then Vector3 (nth 0 res nan) (nth 1 res nan) (nth 2 res nan) (nth 3 res nan)
       else Vector2 (nth 0 res nan) (nth 1 res nan) (nth 2 res nan)).

(** [mat.add(m1, m2)] *)
Definition add (m1 m2 : Float32Array.t) : Float32Array.t :=
  Float32Array.map (fun val i => val + to_number (Float32Array.get m2 i)) m1.

(** [mat.sub(m1, m2)] *)
Definition sub (m1 m2 : Float32Array.t) : Float32Array.t :=
  Float32Array.map (fun val i => val - to_number (Float32Array.get m2 i)) m1.

(** [mat.multiplyScalar(m1, s)] *)
Definition multiplyScalar (m1 : Float32Array.t) (s : float) : Float32Array.t :=
  Float32Array.map (fun val _ => val * s) m1.

(** [mat.translate(...args)] *)
Definition translate (args : list float) : Float32Array.t :=
  fold_left
    (fun m i =>
       fold_left
         (fun m j =>
            if Nat.eqb (j + 1) length
            then Float32Array.set m (i * length + j) (or_else (nth_error args i) 1)
            else m)
         (seq 0 length) m)
    (seq 0 length) identity.

(** [mat.transpose(m)]: the cells of [m] are overwritten from a copy. *)
Definition transpose (m : Float32Array.t) : Float32Array.t :=
  let size := Float32Array.length m / flength in
  let copy := clone m in
  let idx := loop_range size (List.length m) in
  fold_left
    (fun m i =>
       fold_left
         (fun m j =>
            Float32Array.set m (i * length + j)
              (to_number (Float32Array.get copy (j * length + i))))
         idx m)
    idx m.

(** [mat.rotate(m, clockwise)] *)
Definition rotate (m : Float32Array.t) (clockwise : bool) : Float32Array.t :=
  let size := Float32Array.length m / flength in
  let copy := clone m in
  let idx := loop_range size (List.length m) in
  let n := Z.of_nat length in
  fold_left
    (fun m i =>
       fold_left
         (fun m j =>
            let y := if clockwise then (n - 1 - Z.of_nat j)%Z else Z.of_nat j in
            let x := if clockwise then Z.of_nat i else (n - 1 - Z.of_nat i)%Z in
            Float32Array.set m (i * length + j)
              (to_number (Float32Array.getZ copy (y * n + x)%Z)))
         idx m)
    idx m.

End Mat.

Module Mat3x3.
Definition create := create 3.
Definition diagonal := diagonal 3.
Definition identity := identity 3.
Definition multiplyMatrix := multiplyMatrix 3.
Definition multiplyVector := multiplyVector 3.
Definition clone := clone 3.
Definition add := add.
Definition sub := sub.
Definition multiplyScalar := multiplyScalar.
Definition translate := translate 3.
Definition transpose := transpose 3.
Definition rotate := rotate 3.
End Mat3x3.

(** [Math.cos] and [Math.sin] are functions of the host. *)
Record Host : Type := mkHost {
  Math_cos : float -> float;
  Math_sin : float -> float
}.

Module Mat4x4.
Definition create := create 4.
Definition diagonal := diagonal 4.
Definition identity := identity 4.
Definition multiplyMatrix := multiplyMatrix 4.
Definition multiplyVector := multiplyVector 4.

Definition pitchRotation (host : Host) (a : float) : Float32Array.t :=
  let m := create [] in
  let m := Float32Array.set m 0 1 in
  let m := Float32Array.set m 5 (Math_cos host a) in
  let m := Float32Array.set m 6 (- Math_sin host a) in
  let m := Float32Array.set m 9 (Math_sin host a) in
  let m := Float32Array.set m 10 (Math_cos host a) in
  Float32Array.set m 15 1.

Definition rollRotation (host : Host) (a : float) : Float32Array.t :=
  let m := create [] in
  let m := Float32Array.set m 0 (Math_cos host a) in
  let m := Float32Array.set m 1 (- Math_sin host a) in
  let m := Float32Array.set m 4 (Math_sin host a) in
  let m := Float32Array.set m 5 (Math_cos host a) in
  let m := Float32Array.set m 10 1 in
  Float32Array.set m 15 1.

Definition yawRotation (host : Host) (a : float) : Float32Array.t :=
  let m := create [] in
  let m := Float32Array.set m 0 (Math_cos host a) in
  let m := Float32Array.set m 6 (- Math_sin host a) in
  let m := Float32Array.set m 5 1 in
  let m := Float32Array.set m 8 (Math_sin host a) in
  let m := Float32Array.set m 10 (Math_cos host a) in
  Float32Array.set m 15 1.

Definition clone := clone 4.
Definition add := add.
Definition sub := sub.
Definition multiplyScalar := multiplyScalar.
Definition translate := translate 4.
Definition transpose := transpose 4.
Definition rotate := rotate 4.
End Mat4x4.

(** ** Host semantics: strings *)

Module JsString.

Local Open Scope string_scope.

(** [s.split(sep)] for a one-character separator *)
Fixpoint split (sep : ascii) (s : string) : list string :=
  match s with
  | EmptyString => [EmptyString]
  | String c tl =>
      if Ascii.eqb c sep then EmptyString :: split sep tl
      else match split sep tl with
           | hd :: rest => String c hd :: rest
           | [] => [String c EmptyString]
           end
  end.

(** [s.startsWith(p)] *)
Definition startsWith (s p : string) : bool := String.prefix p s.

(** A string is held as the bytes of its UTF-8 encoding.  The white
    space and the line terminators of ECMA-262 that take one byte:
    U+0009 to U+000D and U+0020. *)
Definition is_white_space (c : ascii) : bool :=
  let n := nat_of_ascii c in
  (Nat.leb 9 n && Nat.leb n 13) || Nat.eqb n 32.

(** The one that takes two bytes: U+00A0. *)
Definition is_white_space2 (c c1 : ascii) : bool :=
  Nat.eqb (nat_of_ascii c) 194 && Nat.eqb (nat_of_ascii c1) 160.

(** Those that take three bytes: U+1680, U+2000 to U+200A, U+2028,
    U+2029, U+202F, U+205F, U+3000 and U+FEFF. *)
Definition is_white_space3 (c c1 c2 : ascii) : bool :=
  let n := nat_of_ascii c in
  let n1 := nat_of_ascii c1 in
  let n2 := nat_of_ascii c2 in
  (Nat.eqb n 225 && Nat.eqb n1 154 && Nat.eqb n2 128)
  || (Nat.eqb n 226 && Nat.eqb n1 128
      && ((Nat.leb 128 n2 && Nat.leb n2 138)
          || Nat.eqb n2 168 || Nat.eqb n2 169 || Nat.eqb n2 175))
  || (Nat.eqb n 226 && Nat.eqb n1 129 && Nat.eqb n2 159)
  || (Nat.eqb n 227 && Nat.eqb n1 128 && Nat.eqb n2 128)
  || (Nat.eqb n 239 && Nat.eqb n1 187 && Nat.eqb n2 191).

Fixpoint trim_start (s : string) : string :=
  match s with
  | String c tl =>
      if is_white_space c then trim_start tl
      else
        match tl with
        | String c1 tl1 =>
            if is_white_space2 c c1 then trim_start tl1
            else
              match tl1 with
              | String c2 tl2 =>
                  if is_white_space3 c c1 c2 then trim_start tl2 else s
              | EmptyString => s
              end
        | EmptyString => s
        end
  | EmptyString => s
  end.

Definition digit (c : ascii) : option Z :=
  let n := nat_of_ascii c in
  if Nat.leb 48 n && Nat.leb n 57 then Some (Z.of_nat (n - 48)) else None.

(** Reads a run of decimal digits: the number read so far, how many
    digits were read, and the rest of the string. *)
Fixpoint digits (s : string) (acc count : Z) : Z * Z * string :=
  match s with
  | String c tl =>
      match digit c with
      | Some d => digits tl (10 * acc + d) (count + 1)
      | None => (acc, count, s)
      end
  | EmptyString => (acc, count, s)
  end.

Definition sign (s : string) : bool * string :=
  match s with
  | String "-" tl => (true, tl)
  | String "+" tl => (false, tl)
  | _ => (false, s)
  end.

(** The binary64 value nearest to [m * 10 ^ e10] (ties to even). *)
Definition decimal (neg : bool) (m e10 : Z) : float :=
  match m with
  | Z.pos p =>
      if (310 <? e10)%Z then (if neg then neg_infinity else infinity)
      else if (0 <=? e10)%Z then
        match (m * 10 ^ e10)%Z with
        | Z.pos n => SF2Prim (binary_round prec emax neg n 0)
        | _ => nan
        end
      else if (Z.log2 m + 1 + 3 * e10 <? -1080)%Z then
        (if neg then neg_zero else zero)
      else
        let d := (10 ^ (- e10))%Z in
        let k := Z.max 0 (66 + Z.log2 d - Z.log2 m) in
        let q := (m * 2 ^ k / d)%Z in
        let sticky := if (m * 2 ^ k mod d =? 0)%Z then 0%Z else 1%Z in
        match (2 * q + sticky)%Z with
        | Z.pos n => SF2Prim (binary_round prec emax neg n (- k - 1))
        | _ => nan
        end
  | _ => if neg then neg_zero else zero
  end.

(** [parseFloat(s)]: leading white space is skipped, then the longest
    prefix that is a decimal literal is read; [NaN] if there is none. *)
Definition parseFloat_string (s : string) : float :=
  let '(neg, s1) := sign (trim_start s) in
  if String.prefix "Infinity" s1 then (if neg then neg_infinity else infinity)
  else
    let '(i, ni, s2) := digits s1 0 0 in
    let '(m, nf, s3) :=
      match s2 with
      | String "." tl => digits tl i 0
      | _ => (i, 0%Z, s2)
      end in
    if (ni + nf =? 0)%Z then nan
    else
      let e :=
        match s3 with
        | String c tl =>
            if Ascii.eqb c "e" || Ascii.eqb c "E" then
              let '(eneg, s4) := sign tl in
              let '(e, ne, _) := digits s4 0 0 in
              if (ne =? 0)%Z then 0%Z else if eneg then (- e)%Z else e
            else 0%Z
        | EmptyString => 0%Z
        end in
      decimal neg m (e - nf).

(** [parseFloat(v)] where [v] is a string or [undefined] (which reads as
    the string ["undefined"]). *)
Definition parseFloat (v : option string) : float :=
  match v with
  | Some s => parseFloat_string s
  | None => nan
  end.

End JsString.

(** ** Host semantics: objects used as maps *)

Module JsObject.

(** An object made by [{}] whose properties are set by [o[key] = v]: the
    properties of its own, in the order in which they were created, and
    the value that an assignment to ["__proto__"] has made its prototype,
    if there was one ([Object.prototype] otherwise).  The values assigned
    are arrays. *)
Record t (V : Type) : Type := mk {
  properties : list (string * V);
  prototype : option V
}.
Arguments mk {V} properties prototype.
Arguments properties {V} t.
Arguments prototype {V} t.

(** [{}] *)
Definition empty {V : Type} : t V := mk [] None.

(** An own property is overwritten where it is, or created last. *)
Fixpoint define {V : Type} (ps : list (string * V)) (key : string) (v : V)
  : list (string * V) :=
  match ps with
  | [] => [(key, v)]
  | (k, w) :: rest =>
      if String.eqb k key then (k, v) :: rest
      else (k, w) :: define rest key v
  end.

(** [o[key] = v]: the key ["__proto__"] names the accessor of
    [Object.prototype], whose setter replaces the prototype and creates
    no property. *)
Definition set {V : Type} (o : t V) (key : string) (v : V) : t V :=
  if String.eqb key "__proto__" then mk (properties o) (Some v)
  else mk (define (properties o) key v) (prototype o).

Fixpoint own {V : Type} (ps : list (string * V)) (key : string) : option V :=
  match ps with
  | [] => None
  | (k, v) :: rest => if String.eqb k key then Some v else own rest key
  end.

(** [o[key]] for a key that no prototype of [o] defines: the own
    property, or [undefined]. *)
Definition get {V : Type} (o : t V) (key : string) : option V :=
  own (properties o) key.

(** [o[key]] changed in place (by [push], say), for an own property. *)
Definition update {V : Type} (o : t V) (key : string) (f : V -> V) : t V :=
  mk (map (fun p => if String.eqb (fst p) key then (fst p, f (snd p)) else p)
          (properties o))
     (prototype o).

(** The integer a key denotes if it is an array index: a canonical
    decimal numeral of at most [2 ^ 32 - 2]. *)
Definition array_index (key : string) : option Z :=
  match JsString.digits key 0 0 with
  | (n, count, EmptyString) =>
      if (0 <? count)%Z && (n <=? 4294967294)%Z
         && (negb (String.prefix "0" key) || String.eqb key "0")
      then Some n
      else None
  | _ => None
  end.

Fixpoint insert_index (n : Z) (key : string) (l : list (Z * string))
  : list (Z * string) :=
  match l with
  | [] => [(n, key)]
  | (m, k) :: rest =>
      if (n <? m)%Z then (n, key) :: l else (m, k) :: insert_index n key rest
  end.

(** The keys in the order in which [for (const key in o)] visits them:
    the array indices in ascending order, then the other names in the
    order of their creation.  (The prototypes add nothing: an empty array,
    [Array.prototype] and [Object.prototype] have no enumerable
    property.) *)
Definition keys {V : Type} (o : t V) : list string :=
  let names := map fst (properties o) in
  map snd
      (fold_right
         (fun key sorted =>
            match array_index key with
            | Some n => insert_index n key sorted
            | None => sorted
            end)
         [] names)
  ++ filter (fun key => match array_index key with
                        | Some _ => false
                        | None => true
                        end)
            names.

End JsObject.

(** ** Loops over arrays that may throw *)

(** [arr.forEach((a, i) => body)] where [body] updates a state of type [S]
    and may throw: the state reached so far survives the exception. *)
Fixpoint forEach {S A : Type} (body : A -> nat -> S -> completion unit * S)
    (arr : list A) (i : nat) (s : S) : completion unit * S :=
  match arr with
  | [] => (Normal tt, s)
  | a :: rest =>
      match body a i s with
      | (Normal _, s') => forEach body rest (Datatypes.S i) s'
      | (Throw e, s') => (Throw e, s')
      end
  end.

(** [arr[i] = a] on an ordinary array, for [i <= arr.length]: an element is
    replaced, or the array grows by one.  (The loops below store at the
    index they are visiting, so no hole is ever created.) *)
Fixpoint store {A : Type} (arr : list A) (i : nat) (a : A) : list A :=
  match arr, i with
  | [], _ => [a]
  | _ :: tl, O => a :: tl
  | hd :: tl, Datatypes.S i' => hd :: store tl i' a
  end.

(** ** geometry.js *)

Module Color.

(** The colour object of a triangle; it is created empty ([{}]). *)
Record t : Type := mk {
  h : option float;
  s : option float;
  l : option float;
  a : option float
}.

Definition empty : t := mk None None None None.

End Color.

(** A row of numbers, as produced by the parser: [[x, y, z]]. *)
Definition Row : Type := list float.

Module Triangle.

Record t : Type := mk {
  vertices : list Vector.t;
  color : Color.t
}.

(** [new Triangle(vertices, color)].  An entry of [vertices] is a row of
    numbers or [undefined]; the rows a mesh holds are never [Vector3]
    objects, so the constructor builds one, and reading [p[0]] of
    [undefined] throws. *)
Definition new (verts : list (option Row)) (c : Color.t) : completion t :=
  match
    forEach
      (fun p i (acc : list Vector.t) =>
         match p with
         | Some p =>
             (Normal tt,
              store acc i (Vector3 (default (nth_error p 0) 0)
                                   (default (nth_error p 1) 0)
                                   (default (nth_error p 2) 0) 1))
         | None =>
             (Throw (TypeError "Cannot read properties of undefined"), acc)
         end)
      verts 0 []
  with
  | (Normal _, vs) => Normal (mk vs c)
  | (Throw e, _) => Throw e
  end.

(** An entry of the array handed to the constructor in general: a row of
    numbers, a vector object, or [undefined]. *)
Inductive Vertex : Type :=
| VRow (p : Row)
| VVector (v : Vector.t)
| VUndefined.

(** [new Triangle(vertices, color)] on any such array: a [Vector3] is
    kept, a row is read into a new [Vector3], and so is any other vector
    object, whose properties [0], [1], [2] are [undefined]. *)
Definition construct (verts : list Vertex) (c : Color.t) : completion t :=
  match
    forEach
      (fun p i (acc : list Vector.t) =>
         match p with
         | VVector v =>
             (Normal tt,
              store acc i (match Vector.type v with
                           | D3 => v
                           | D2 => Vector3 0 0 0 1
                           end))
         | VRow p =>
             (Normal tt,
              store acc i (Vector3 (default (nth_error p 0) 0)
                                   (default (nth_error p 1) 0)
                                   (default (nth_error p 2) 0) 1))
         | VUndefined =>
             (Throw (TypeError "Cannot read properties of undefined"), acc)
         end)
      verts 0 []
  with
  | (Normal _, vs) => Normal (mk vs c)
  | (Throw e, _) => Throw e
  end.

(** [Triangle.clone(tri)] *)
Definition clone (tri : t) : completion t :=
  construct (List.map VVector (vertices tri)) (color tri).

End Triangle.

(** ** The objects of mesh.js and scene.js *)

(** The fields of a mesh. *)
Record MeshState : Type := mkMeshState {
  vertices : list Row;
  faces : list Row;
  faceColor : list Row;
  triangles : list Triangle.t;
  scale : Vector.t;
  position : Vector.t;
  rotation : Vector.t;
  showVertex : bool;
  showWireFrame : bool;
  fillShader : bool;
  wireFrameColor : option string
}.

(** A mesh, with the [update] function a caller may attach to it. *)
Record Mesh : Type := mkMesh {
  state : MeshState;
  update : option (MeshState -> MeshState)
}.

(** An entry of the render list [toRaster]. *)
Module PaintRecord.

Record t : Type := mk {
  vertices : list Vector.t;
  zAverage : float;
  alpha : float;
  color : Color.t;
  showVertex : bool;
  showWireFrame : bool;
  fillShader : bool;
  wireFrameColor : option string
}.

End PaintRecord.

Module Camera.

Record t : Type := mk {
  position : Vector.t;
  rotation : Vector.t
}.

End Camera.

(** What is assigned to [ctx.fillStyle] or [ctx.strokeStyle]: the template
    string [hsla(h, s%, l%, a)], another string, or the colour object. *)
Inductive Style : Type :=
| Hsla (c : Color.t)
| Css (s : string)
| Object (c : Color.t).

(** The calls made on the 2D drawing context. *)
Inductive CanvasOp : Type :=
| save
| restore
| fillStyle (s : Style)
| strokeStyle (s : Style)
| beginPath
| closePath
| arc (x y r a0 a1 : float)
| moveTo (x y : float)
| lineTo (x y : float)
| fill
| stroke.

(** A scene; [ctx] records the calls made on the drawing context, and
    [width], [height] are those of the canvas element. *)
Record Scene : Type := mkScene {
  ctx : list CanvasOp;
  clearColor : option string;
  projectionMatrix : Float32Array.t;
  objects : list Mesh;
  toRaster : list PaintRecord.t;
  camera : Camera.t;
  width : float;
  height : float
}.

(** The values [scene.add] may be handed. *)
Inductive JsValue : Type :=
| JsUndefined
| JsNull
| JsBoolean (b : bool)
| JsNumber (n : float)
| JsString (s : string)
| JsVector (v : Vector.t)
| JsTriangle (t : Triangle.t)
| JsMesh (m : Mesh).

(** [v instanceof Mesh] *)
Definition instanceof_Mesh (v : JsValue) : bool :=
  match v with
  | JsMesh _ => true
  | _ => false
  end.

(** [Vector.clone(vec)] *)
Definition Vector_clone (vec : JsValue) : completion Vector.t :=
  match vec with
  | JsVector vec =>
      Normal
        (fold_left
           (fun res i =>
              match Vector.get vec i with
              | Some a => Vector.set res i a
              | None =>
                  Vector.mk (Vector.type res) (Vector.x res) (Vector.y res)
                            None (Vector.w res)
              end)
           (Vector.components vec) (Vector.createVector vec))
  | _ => Throw (Error "Cannot clone Vector from a non-Vector Object")
  end.

(** ** mesh.js *)

(** [PARSE_MESH_DATA(data, ...extracts)]: an object with an empty array
    for every key; then, for every key of the object in the order of
    [for ... in], the rows read from the lines that start with the key
    are pushed on its array. *)
Definition PARSE_MESH_DATA (data : string) (extracts : list string)
  : JsObject.t (list Row) :=
  let res :=
    fold_left (fun res key => JsObject.set res key []) extracts JsObject.empty in
  let spliitedData := JsString.split (ascii_of_nat 10) data in
  fold_left
    (fun res i =>
       fold_left
         (fun res item =>
            if JsString.startsWith item i then
              let value := JsString.split " " item in
              JsObject.update res i
                (fun rows =>
                   rows ++ [map JsString.parseFloat
                              [nth_error value 1; nth_error value 2;
                               nth_error value 3]])
            else res)
         spliitedData res)
    (JsObject.keys res) res.

(** [res[key]], for the keys [v], [f] and [c] *)
Definition lookup (res : JsObject.t (list Row)) (key : string)
  : option (list Row) :=
  JsObject.get res key.

Module Mesh.

Definition set_triangles (this : MeshState) (ts : list Triangle.t) : MeshState :=
  mkMeshState (vertices this) (faces this) (faceColor this) ts
    (scale this) (position this) (rotation this) (showVertex this)
    (showWireFrame this) (fillShader this) (wireFrameColor this).

(** The assignment [mesh.faces = fs], an edit made by a caller. *)
Definition set_faces (this : MeshState) (fs : list Row) : MeshState :=
  mkMeshState (vertices this) fs (faceColor this) (triangles this)
    (scale this) (position this) (rotation this) (showVertex this)
    (showWireFrame this) (fillShader this) (wireFrameColor this).

Definition parseWaveFront := PARSE_MESH_DATA.

(** The body of the loop of [updateGeometry], for the face at index [i]. *)
Definition updateFace (face : Row) (i : nat) (this : MeshState)
  : completion unit * MeshState :=
  let v := vertices this in
  let c := nth_error (faceColor this) i in
  match
    Triangle.new
      [ index v (to_number (nth_error face 0) - 1);
        index v (to_number (nth_error face 1) - 1);
        index v (to_number (nth_error face 2) - 1) ]
      Color.empty
  with
  | Throw e => (Throw e, this)
  | Normal triangle =>
      match c with
      | None =>
          (Throw (TypeError "Cannot read properties of undefined"), this)
      | Some c =>
          let col := Color.mk (nth_error c 0) (nth_error c 1) (nth_error c 2)
                              (Some (or_else (nth_error c 3) 1)) in
          (Normal tt,
           set_triangles this
             (store (triangles this) i
                    (Triangle.mk (Triangle.vertices triangle) col)))
      end
  end.

(** [updateGeometry()] *)
Definition updateGeometry (this : MeshState) : completion unit * MeshState :=
  forEach updateFace (faces this) 0 this.

(** [new Mesh(data)] *)
Definition new (data : string) : completion Mesh :=
  let data := parseWaveFront data ["v"; "f"; "c"]%string in
  let this :=
    mkMeshState
      (match lookup data "v" with Some r => r | None => [] end)
      (match lookup data "f" with Some r => r | None => [] end)
      (match lookup data "c" with Some r => r | None => [] end)
      []
      (Vector3 1 1 1 1) (Vector3 0 0 0 1) (Vector3 0 0 0 1)
      false true true None in
  match updateGeometry this with
  | (Normal _, this) => Normal (mkMesh this None)
  | (Throw e, _) => Throw e
  end.

(** The three components of a vector object, assigned in place. *)
Definition assign (v : Vector.t) (x y z : float) : Vector.t :=
  Vector.set (Vector.set (Vector.set v Cx x) Cy y) Cz z.

(** [setPosition(x = 0, y = 0, z = 0)] *)
Definition setPosition (this : MeshState) (x y z : option float) : MeshState :=
  mkMeshState (vertices this) (faces this) (faceColor this) (triangles this)
    (scale this)
    (assign (position this) (default x 0) (default y 0) (default z 0))
    (rotation this) (showVertex this)
    (showWireFrame this) (fillShader this) (wireFrameColor this).

(** [setRotation(x = 0, y = 0, z = 0)] *)
Definition setRotation (this : MeshState) (x y z : option float) : MeshState :=
  mkMeshState (vertices this) (faces this) (faceColor this) (triangles this)
    (scale this) (position this)
    (assign (rotation this) (default x 0) (default y 0) (default z 0))
    (showVertex this)
    (showWireFrame this) (fillShader this) (wireFrameColor this).

(** [setScale(x = 1, y = 1, z = 1)] *)
Definition setScale (this : MeshState) (x y z : option float) : MeshState :=
  mkMeshState (vertices this) (faces this) (faceColor this) (triangles this)
    (assign (scale this) (default x 1) (default y 1) (default z 1))
    (position this) (rotation this) (showVertex this)
    (showWireFrame this) (fillShader this) (wireFrameColor this).

(** The vertices of a triangle after scaling, translation and rotation. *)
Definition transform (this : MeshState) (mRotate : Float32Array.t)
    (tri : Triangle.t) : completion unit * list Vector.t :=
  forEach
    (fun vertex i (transformed : list Vector.t) =>
       let t := Vector.mult vertex (scale this) in
       let t := Vector.add t (position this) in
       match Mat4x4.multiplyVector mRotate t with
       | Normal t => (Normal tt, store transformed i t)
       | Throw e => (Throw e, transformed)
       end)
    (Triangle.vertices tri) 0 [].

(** The face normal computed from the transformed vertices; calling a
    method of [transformed[1]] or [transformed[2]], or reading a
    property of [transformed[0]], throws if that vertex is missing. *)
Definition faceNormal (transformed : list Vector.t) : completion Vector.t :=
  match nth_error transformed 0, nth_error transformed 1,
        nth_error transformed 2 with
  | Some line1, Some t1, Some t2 =>
      let line2 := Vector.sub t1 line1 in
      let line3 := Vector.sub t2 line1 in
      let cross := Vector.cross line2 line3 in
      Normal (Vector.normalise cross)
  | _, _, _ => Throw (TypeError "Cannot read properties of undefined")
  end.

(** The projection of the transformed vertices to the viewport. *)
Definition project (scene : Scene) (transformed : list Vector.t)
  : completion unit * list Vector.t :=
  forEach
    (fun tri i (projected : list Vector.t) =>
       match Mat4x4.multiplyVector (projectionMatrix scene) tri with
       | Normal p =>
           let p := Vector.set p Cx (Vector.x p + 1) in
           let p := Vector.set p Cy (Vector.y p + 1) in
           let p := Vector.set p Cx (Vector.x p * (width scene * 0.5)) in
           let p := Vector.set p Cy (Vector.y p * (height scene * 0.5)) in
           (Normal tt, store projected i p)
       | Throw e => (Throw e, projected)
       end)
    transformed 0 [].

Definition push (scene : Scene) (r : PaintRecord.t) : Scene :=
  mkScene (ctx scene) (clearColor scene) (projectionMatrix scene)
    (objects scene) (toRaster scene ++ [r]) (camera scene)
    (width scene) (height scene).

(** [(transformed[0].z + transformed[1].z + transformed[2].z) / 3] *)
Definition zAverage (transformed : list Vector.t) : float :=
  let z i := to_number (Vector.z (nth i transformed (Vector3 0 0 0 1))) in
  (z 0%nat + z 1%nat + z 2%nat) / 3.

(** The body of the loop over [this.triangles]. *)
Definition processTriangle (this : MeshState) (mRotate : Float32Array.t)
    (tri : Triangle.t) (_ : nat) (scene : Scene) : completion unit * Scene :=
  match transform this mRotate tri with
  | (Throw e, _) => (Throw e, scene)
  | (Normal _, transformed) =>
      match faceNormal transformed with
      | Throw e => (Throw e, scene)
      | Normal cross =>
          if to_number (Vector.z cross) <? 0 then
            let zAverage := zAverage transformed in
            let alpha := 1 in
            match project scene transformed with
            | (Throw e, _) => (Throw e, scene)
            | (Normal _, projected) =>
                (Normal tt,
                 push scene
                   (PaintRecord.mk projected zAverage alpha
                      (Triangle.color tri) (showVertex this)
                      (showWireFrame this) (fillShader this)
                      (wireFrameColor this)))
            end
          else (Normal tt, scene)
      end
  end.

(** The rotation matrix of [process]: pitch times roll. *)
Definition mRotate (host : Host) (this : MeshState) (scene : Scene)
  : completion Float32Array.t :=
  let mRotateX :=
    Mat4x4.pitchRotation host
      (Vector.x (rotation this) + Vector.x (Camera.rotation (camera scene))) in
  let mRotateZ :=
    Mat4x4.rollRotation host
      (to_number (Vector.z (rotation this))
       + to_number (Vector.z (Camera.rotation (camera scene)))) in
  Mat4x4.multiplyMatrix mRotateX mRotateZ.

(** [this.update()], when a function is attached. *)
Definition runUpdate (this : Mesh) : Mesh :=
  match update this with
  | Some f => mkMesh (f (state this)) (update this)
  | None => this
  end.

(** [process(scene)]: the mesh (as its [update] left it) and the scene
    (with the records pushed so far) after the call. *)
Definition process (host : Host) (this : Mesh) (scene : Scene)
  : completion unit * (Mesh * Scene) :=
  let this := runUpdate this in
  match mRotate host (state this) scene with
  | Throw e => (Throw e, (this, scene))
  | Normal m =>
      let '(r, scene) :=
        forEach (processTriangle (state this) m)
                (triangles (state this)) 0 scene in
      (r, (this, scene))
  end.

End Mesh.

(** ** Host semantics: [Array.prototype.sort]

    ECMA-262 fixes the result of [sort] only for a consistent comparator
    (one that induces a strict weak order); otherwise the order is left to
    the implementation.  The model below is the algorithm of V8 (Chrome,
    Node.js) for arrays of fewer than 64 elements: the first run is
    counted, reversed if it is descending, and the remaining elements are
    inserted by binary search.  Every decision tests [order < 0]. *)

Module JsArray.

Section Sort.

Context {A : Type}.

(** The comparator after [ToNumber], with [NaN] read as [+0]. *)
Variable compare : A -> A -> float.

Fixpoint extendRun (isDescending : bool) (previous : A) (rest : list A)
    (runLength : nat) : nat :=
  match rest with
  | [] => runLength
  | current :: rest =>
      let order := compare current previous in
      if (if isDescending then negb (order <? 0) else order <? 0)
      then runLength
      else extendRun isDescending current rest (S runLength)
  end.

(** [CountAndMakeRun]: the array with its first run made ascending,
    and the length of that run. *)
Definition countAndMakeRun (arr : list A) : list A * nat :=
  match arr with
  | low :: high :: rest =>
      let isDescending := compare high low <? 0 in
      let runLength := extendRun isDescending high rest 2 in
      (if isDescending
       then rev (firstn runLength arr) ++ skipn runLength arr
       else arr,
       runLength)
  | _ => (arr, List.length arr)
  end.

(** The binary search of [BinaryInsertionSort]; the interval
    [left, right) shrinks at every step, so [fuel = right - left]
    steps are enough. *)
Fixpoint insertionPoint (fuel : nat) (arr : list A) (pivot : A)
    (left right : nat) : nat :=
  match fuel with
  | O => left
  | S fuel =>
      if Nat.ltb left right then
        let mid := (left + Nat.div2 (right - left))%nat in
        match nth_error arr mid with
        | Some m =>
            if compare pivot m <? 0
            then insertionPoint fuel arr pivot left mid
            else insertionPoint fuel arr pivot (S mid) right
        | None => left
        end
      else left
  end.

(** [BinaryInsertionSort]: the elements at [start], [start + 1], ...
    ([count] of them) are inserted into the sorted prefix. *)
Fixpoint binaryInsertionSort (arr : list A) (start count : nat) : list A :=
  match count with
  | O => arr
  | S count =>
      match nth_error arr start with
      | Some pivot =>
          let left := insertionPoint start arr pivot 0 start in
          let arr :=
            firstn left arr ++ pivot :: firstn (start - left)%nat (skipn left arr)
            ++ skipn (S start) arr in
          binaryInsertionSort arr (S start) count
      | None => arr
      end
  end.

(** [arr.sort(comparefn)] *)
Definition sort (arr : list A) : list A :=
  if Nat.ltb (List.length arr) 2 then arr
  else
    let '(arr, runLength) := countAndMakeRun arr in
    binaryInsertionSort arr runLength (List.length arr - runLength)%nat.

End Sort.

(** [ToNumber] of a boolean returned by a comparator. *)
Definition number_of_bool (b : bool) : float := if b then 1 else 0.

(** A comparator is consistent only if, among other laws, [a] comparing
    equal to [b] makes [b] compare equal to [a]. *)
Definition symmetric_at {A : Type} (compare : A -> A -> float) (a b : A) : bool :=
  implb (compare a b =? 0) (compare b a =? 0).

End JsArray.

(** ** scene.js *)

Module Scene.

Definition set_toRaster (this : Scene) (rs : list PaintRecord.t) : Scene :=
  mkScene (ctx this) (clearColor this) (projectionMatrix this)
    (objects this) rs (camera this) (width this) (height this).

Definition set_objects (this : Scene) (os : list Mesh) : Scene :=
  mkScene (ctx this) (clearColor this) (projectionMatrix this)
    os (toRaster this) (camera this) (width this) (height this).

Definition set_projectionMatrix (this : Scene) (m : Float32Array.t) : Scene :=
  mkScene (ctx this) (clearColor this) m
    (objects this) (toRaster this) (camera this) (width this) (height this).

Definition draw (this : Scene) (ops : list CanvasOp) : Scene :=
  mkScene (ctx this ++ ops) (clearColor this) (projectionMatrix this)
    (objects this) (toRaster this) (camera this) (width this) (height this).

(** [setRotation(x = 0, y = 0, z = 0)] of the camera *)
Definition setRotation (this : Scene) (x y z : option float) : Scene :=
  mkScene (ctx this) (clearColor this) (projectionMatrix this)
    (objects this) (toRaster this)
    (Camera.mk (Camera.position (camera this))
               (Mesh.assign (Camera.rotation (camera this))
                            (default x 0) (default y 0) (default z 0)))
    (width this) (height this).

(** [updateProjectionMatrix(left, right, bottom, top, near, far)] *)
Definition updateProjectionMatrix (this : Scene)
    (left right bottom top near far : float) : Scene :=
  let m := projectionMatrix this in
  let m := Float32Array.set m 0 (2 / (right - left)) in
  let m := Float32Array.set m 3 (- (right + left) / (right - left)) in
  let m := Float32Array.set m 5 (2 / (top - bottom)) in
  let m := Float32Array.set m 7 (- (top + bottom) / (top - bottom)) in
  let m := Float32Array.set m 10 (-2 / (far - near)) in
  let m := Float32Array.set m 11 (- (far + near) / (far - near)) in
  let m := Float32Array.set m 15 1 in
  set_projectionMatrix this m.

(** [new Scene(w, h)]; a new canvas element is 300 by 150, and the
    constructor changes its style only. *)
Definition new (w h : float) : Scene :=
  updateProjectionMatrix
    (mkScene [] None (Mat4x4.create []) [] []
             (Camera.mk (Vector3 0 0 0 1) (Vector3 0 0 0 1)) 300 150)
    0 w h 0 0x1.999999999999ap-4 100.

(** [add(obj)] *)
Definition add (this : Scene) (obj : JsValue) : completion unit * Scene :=
  match obj with
  | JsMesh m => (Normal tt, set_objects this (objects this ++ [m]))
  | _ =>
      (Throw (TypeError
                "You can only Add an instance of a `Mesh` object to the scene"),
       this)
  end.

(** The comparator handed to [sort]: [(a, b) => a.zAverage < b.zAverage]. *)
Definition comparefn (a b : PaintRecord.t) : float :=
  JsArray.number_of_bool (PaintRecord.zAverage a <? PaintRecord.zAverage b).

(** [2 * Math.PI] *)
Definition two_pi : float := 2 * 0x1.921fb54442d18p+1.

(** The body of the painting loop, for one record of the render list.
    The arguments of a call are read before the call is made: a missing
    vertex throws after the calls made for the vertices before it. *)
Definition paint (tri : PaintRecord.t) (_ : nat) (this : Scene)
  : completion unit * Scene :=
  let v := PaintRecord.vertices tri in
  let c := PaintRecord.color tri in
  let markers :=
    if PaintRecord.showVertex tri then
      [save]
      ++ flat_map
           (fun vertex =>
              [fillStyle (Object c); beginPath;
               arc (Vector.x vertex) (Vector.y vertex) 2 0 two_pi;
               closePath; fill])
           v
      ++ [restore]
    else [] in
  let this := draw this markers in
  if PaintRecord.showWireFrame tri || PaintRecord.fillShader tri then
    let pen :=
      match PaintRecord.wireFrameColor tri with
      | Some EmptyString | None => Hsla c
      | Some col => Css col
      end in
    let undefined_vertex := TypeError "Cannot read properties of undefined" in
    let start := [strokeStyle pen; fillStyle (Hsla c); beginPath] in
    match nth_error v 0 with
    | None => (Throw undefined_vertex, draw this start)
    | Some v0 =>
        let start := start ++ [moveTo (Vector.x v0) (Vector.y v0)] in
        match nth_error v 1 with
        | None => (Throw undefined_vertex, draw this start)
        | Some v1 =>
            let start := start ++ [lineTo (Vector.x v1) (Vector.y v1)] in
            match nth_error v 2 with
            | None => (Throw undefined_vertex, draw this start)
            | Some v2 =>
                (Normal tt,
                 draw this
                   (start
                    ++ [lineTo (Vector.x v2) (Vector.y v2); closePath]
                    ++ (if PaintRecord.fillShader tri then [fill] else [])
                    ++ [stroke]))
            end
        end
    end
  else (Normal tt, this).

(** The body of [this.objects.forEach(obj => obj.process(this))]; the
    mesh object, as its [update] left it, stays in the object list.  The
    entries of the list stand for distinct objects here; [Shared] below
    holds them by reference. *)
Definition processObject (host : Host) (obj : Mesh) (i : nat) (this : Scene)
  : completion unit * Scene :=
  let '(r, (obj, this)) := Mesh.process host obj this in
  (r, set_objects this (store (objects this) i obj)).

(** The render list in the order in which [render] paints it. *)
Definition paintOrder (toRaster : list PaintRecord.t) : list PaintRecord.t :=
  JsArray.sort comparefn toRaster.

(** [render()] *)
Definition render (host : Host) (this : Scene) : completion unit * Scene :=
  let this := set_toRaster this [] in
  match forEach (processObject host) (objects this) 0 this with
  | (Throw e, this) => (Throw e, this)
  | (Normal _, this) =>
      let this := set_toRaster this (paintOrder (toRaster this)) in
      match forEach paint (toRaster this) 0 this with
      | (Throw e, this) => (Throw e, this)
      | (Normal _, this) => (Normal tt, set_toRaster this [])
      end
  end.

End Scene.

(** ** Mesh objects by reference

    [scene.objects] holds references: a mesh that was added twice is one
    object, and its [update] function then runs twice in a [render], each
    time on what the last run left.  Here the mesh objects live in a heap
    and the object list holds their addresses. *)

Module Shared.

Record t : Type := mk {
  heap : list Mesh;
  refs : list nat;
  scene : Scene
}.
(* [heap]: the mesh objects; an address is an index of this list.
   [refs]: the array [scene.objects].
   [scene]: the other fields of the scene (its own object list is not read). *)

(** [scene.add(obj)] for the mesh object at the address [obj] *)
Definition add (this : t) (obj : nat) : t :=
  mk (heap this) (refs this ++ [obj]) (scene this).

(** The body of [this.objects.forEach(obj => obj.process(this))].  (Every
    address of the object list is one of a mesh object.) *)
Definition processObject (host : Host) (obj : nat) (_ : nat) (this : t)
  : completion unit * t :=
  match nth_error (heap this) obj with
  | Some m =>
      let '(r, (m, s)) := Mesh.process host m (scene this) in
      (r, mk (store (heap this) obj m) (refs this) s)
  | None => (Normal tt, this)
  end.

(** [render()] *)
Definition render (host : Host) (this : t) : completion unit * t :=
  let this := mk (heap this) (refs this) (Scene.set_toRaster (scene this) []) in
  match forEach (processObject host) (refs this) 0 this with
  | (Throw e, this) => (Throw e, this)
  | (Normal _, this) =>
      let s :=
        Scene.set_toRaster (scene this)
          (Scene.paintOrder (toRaster (scene this))) in
      match forEach Scene.paint (toRaster s) 0 s with
      | (Throw e, s) => (Throw e, mk (heap this) (refs this) s)
      | (Normal _, s) =>
          (Normal tt, mk (heap this) (refs this) (Scene.set_toRaster s []))
      end
  end.

End Shared.

(** ** Reference definitions and concrete inputs *)

(** The cross product as the specification words it:
    [(a.y*b.z - a.z*b.y, a.z*b.x - a.x*b.z, a.x*b.y - a.y*b.x)]. *)
Definition standard_cross (a b : Vector.t) : Vector.t :=
  let az := to_number (Vector.z a) in
  let bz := to_number (Vector.z b) in
  Vector.mk D3 (Vector.y a * bz - az * Vector.y b)
            (az * Vector.x b - Vector.x a * bz)
            (Some (Vector.x a * Vector.y b - Vector.y a * Vector.x b)) 1.

(** [normalise] as the specification words it: every component is
    divided by the magnitude the vector had; a vector of magnitude 0 is
    left as it is. *)
Definition standard_normalise (v : Vector.t) : Vector.t :=
  let m := Vector.magnitude v in
  if m =? 0 then v
  else Vector.mk (Vector.type v) (Vector.x v / m) (Vector.y v / m)
         (option_map (fun z => z / m) (Vector.z v)) (Vector.w v).

(** The face normal as the specification words it:
    [normalise(cross(v1 - v0, v2 - v0))]. *)
Definition standard_normal (v0 v1 v2 : Vector.t) : Vector.t :=
  standard_normalise (standard_cross (Vector.sub v1 v0) (Vector.sub v2 v0)).

(** A host for concrete runs: [Math.cos] and [Math.sin] by Taylor
    polynomials.  ECMA-262 leaves the precision of both functions to the
    implementation; at the angle 0, the only one the runs below use, every
    host returns [cos 0 = 1] and [sin 0 = 0], as this one does. *)
Definition taylorHost : Host :=
  mkHost
    (fun a => 1 - a * a / 2 + a * a * a * a / 24 - a * a * a * a * a * a / 720)
    (fun a => a - a * a * a / 6 + a * a * a * a * a / 120).

Definition lines (ls : list string) : string :=
  String.concat (String (ascii_of_nat 10) EmptyString) ls.

(** The source text ["v 0 0 0\nv 1 0 0\nv 0 1 0\nf 1 2 3\nc 120 50 50"]. *)
Definition triangleSource : string :=
  lines ["v 0 0 0"; "v 1 0 0"; "v 0 1 0"; "f 1 2 3"; "c 120 50 50"]%string.

(** A mesh of two faces. *)
Definition twoFaceSource : string :=
  lines ["v 0 0 0"; "v 1 0 0"; "v 0 1 0"; "v 1 1 0";
         "f 1 2 3"; "f 2 4 3"; "c 120 50 50"; "c 240 50 50"]%string.

(** Three triangles that face the camera, at the depths 5, 1 and 3, with
    the hues 10, 20 and 30. *)
Definition depthSource : string :=
  lines ["v 0 0 5"; "v 0 1 5"; "v 1 0 5";
         "v 0 0 1"; "v 0 1 1"; "v 1 0 1";
         "v 0 0 3"; "v 0 1 3"; "v 1 0 3";
         "f 1 2 3"; "f 4 5 6"; "f 7 8 9";
         "c 10 50 50"; "c 20 50 50"; "c 30 50 50"]%string.

(** One triangle wound so that it faces away from the camera (hue 10) and
    the same triangle wound the other way (hue 20). *)
Definition cullSource : string :=
  lines ["v 0 0 0"; "v 1 0 0"; "v 0 1 0";
         "f 1 2 3"; "f 1 3 2"; "c 10 50 50"; "c 20 50 50"]%string.

(** A steep triangle: two of its vertices are far from the first along
    [z], in opposite directions. *)
Definition steepSource : string :=
  lines ["v 0 0 0"; "v 1 0 1e200"; "v 0 -1 -1e200";
         "f 1 2 3"; "c 10 50 50"]%string.

(** The hues assigned to [fillStyle] while the triangles are filled, in
    the order of the calls. *)
Definition fillHues (ops : list CanvasOp) : list (option float) :=
  flat_map (fun op => match op with
                      | fillStyle (Hsla c) => [Color.h c]
                      | _ => []
                      end) ops.

(** A triangle as [updateGeometry] builds it: three vertices, each a
    [Vector3]. *)
Definition wellFormedTriangle (tri : Triangle.t) : Prop :=
  List.length (Triangle.vertices tri) = 3%nat /\
  Forall (fun v => Vector.type v = D3) (Triangle.vertices tri).

(** The test that [process] makes on a triangle: the normal that the code
    computes from the transformed vertices, with its own [cross] and
    [normalise], has a negative [z]. *)
Definition frontFacing (this : MeshState) (mRotate : Float32Array.t)
    (tri : Triangle.t) : bool :=
  match Mesh.transform this mRotate tri with
  | (Normal _, transformed) =>
      match Mesh.faceNormal transformed with
      | Normal n => to_number (Vector.z n) <? 0
      | Throw _ => false
      end
  | (Throw _, _) => false
  end.

(** [r] is the paint record [process] builds for the triangle [tri]. *)
Definition recordOf (this : MeshState) (scene : Scene)
    (mRotate : Float32Array.t) (tri : Triangle.t) (r : PaintRecord.t) : Prop :=
  exists transformed projected,
    Mesh.transform this mRotate tri = (Normal tt, transformed) /\
    Mesh.project scene transformed = (Normal tt, projected) /\
    r = PaintRecord.mk projected (Mesh.zAverage transformed) 1
          (Triangle.color tri) (showVertex this) (showWireFrame this)
          (fillShader this) (wireFrameColor this).

(** A mesh without geometry. *)
Definition emptyMesh : Mesh :=
  mkMesh (mkMeshState [] [] [] [] (Vector3 1 1 1 1) (Vector3 0 0 0 1)
            (Vector3 0 0 0 1) false true true None) None.

(** The mesh of a source text ([emptyMesh] if the constructor throws). *)
Definition meshFrom (src : string) : Mesh :=
  match Mesh.new src with
  | Normal m => m
  | Throw _ => emptyMesh
  end.

(** A paint record at the depth [z]. *)
Definition recordAt (z : float) : PaintRecord.t :=
  PaintRecord.mk [] z 1 Color.empty false true true None.

(** A cell that every copy keeps: a binary32 value other than [NaN] and
    [-0] (a copy goes through [args[i] || 0] and a store). *)
Definition stable (x : float) : Prop := fround (or_else (Some x) 0) = x.

(** A vector object with the properties of its class: no [z] on a
    [Vector2], a [z] on a [Vector3]. *)
Definition wellShaped (v : Vector.t) : Prop :=
  match Vector.type v with
  | D2 => Vector.z v = None
  | D3 => Vector.z v <> None
  end.

(** The rows of a key in the result of the parser ([[]] if absent). *)
Definition rowsOf (res : JsObject.t (list Row)) (key : string) : list Row :=
  match lookup res key with
  | Some rows => rows
  | None => []
  end.

(** The lines of a text. *)
Definition linesOf (data : string) : list string :=
  JsString.split (ascii_of_nat 10) data.

(** What [updateGeometry] needs of the face at index [i]: three indices
    of existing vertices (counted from 1) and a colour row. *)
Definition faceOk (this : MeshState) (face : Row) (i : nat) : bool :=
  match index (vertices this) (to_number (nth_error face 0) - 1),
        index (vertices this) (to_number (nth_error face 1) - 1),
        index (vertices this) (to_number (nth_error face 2) - 1),
        nth_error (faceColor this) i with
  | Some _, Some _, Some _, Some _ => true
  | _, _, _, _ => false
  end.

(** The vector the [Triangle] constructor reads from a row. *)
Definition vertexOf (p : Row) : Vector.t :=
  Vector3 (default (nth_error p 0) 0) (default (nth_error p 1) 0)
          (default (nth_error p 2) 0) 1.

(** The triangle of the face [face] with the colour row [c]. *)
Definition triangleOf (this : MeshState) (face c : Row) : option Triangle.t :=
  match index (vertices this) (to_number (nth_error face 0) - 1),
        index (vertices this) (to_number (nth_error face 1) - 1),
        index (vertices this) (to_number (nth_error face 2) - 1) with
  | Some p0, Some p1, Some p2 =>
      Some (Triangle.mk [vertexOf p0; vertexOf p1; vertexOf p2]
              (Color.mk (nth_error c 0) (nth_error c 1) (nth_error c 2)
                        (Some (or_else (nth_error c 3) 1))))
  | _, _, _ => None
  end.

(** ** Reference definitions for the further properties *)

(** The row the parser reads from a line: the fields 1 to 3 of the line
    split at the spaces, each through [parseFloat]. *)
Definition rowOf (item : string) : Row :=
  map JsString.parseFloat
      [nth_error (JsString.split " " item) 1;
       nth_error (JsString.split " " item) 2;
       nth_error (JsString.split " " item) 3].

(** The rows of the lines that start with [key], in the order of the
    lines. *)
Definition rowsFor (key : string) (items : list string) : list Row :=
  map rowOf (filter (fun item => JsString.startsWith item key) items).

(** What the parser does with one line, for the key [i]. *)
Definition parseLine (i : string) (res : JsObject.t (list Row)) (item : string)
  : JsObject.t (list Row) :=
  if JsString.startsWith item i then
    JsObject.update res i (fun rows => rows ++ [rowOf item])
  else res.

(** What the [Triangle] constructor stores for a vector object. *)
Definition keepVector3 (v : Vector.t) : Vector.t :=
  match Vector.type v with
  | D3 => v
  | D2 => Vector3 0 0 0 1
  end.

(** The error of the two matrix products. *)
Definition mismatch : Exception :=
  TypeError "Left hand column must be equal to right hand row".

(** The calls that move, turn or scale a mesh. *)
Inductive MeshCall : Type :=
| SetPosition (x y z : option float)
| SetRotation (x y z : option float)
| SetScale (x y z : option float).

Definition meshCall (this : Mesh) (c : MeshCall) : Mesh :=
  match c with
  | SetPosition x y z => mkMesh (Mesh.setPosition (state this) x y z) (update this)
  | SetRotation x y z => mkMesh (Mesh.setRotation (state this) x y z) (update this)
  | SetScale x y z => mkMesh (Mesh.setScale (state this) x y z) (update this)
  end.

(** The calls that configure a scene; [Add] leaves the scene the call
    leaves, whether it returns or throws. *)
Inductive SceneCall : Type :=
| Add (obj : JsValue)
| SetCameraRotation (x y z : option float)
| UpdateProjectionMatrix (left right bottom top near far : float).

Definition sceneCall (this : Scene) (c : SceneCall) : Scene :=
  match c with
  | Add obj => snd (Scene.add this obj)
  | SetCameraRotation x y z => Scene.setRotation this x y z
  | UpdateProjectionMatrix l r b t n f =>
      Scene.updateProjectionMatrix this l r b t n f
  end.

(** A mesh made by the constructor and then moved, turned or scaled. *)
Definition builtMesh (m : Mesh) : Prop :=
  exists src m0 calls, Mesh.new src = Normal m0 /\ m = fold_left meshCall calls m0.

(** A call that hands [add] no mesh but a built one. *)
Definition builtCall (c : SceneCall) : Prop :=
  match c with
  | Add (JsMesh m) => builtMesh m
  | _ => True
  end.

(** A mesh without [update] function whose triangles are well formed. *)
Definition meshReady (m : Mesh) : Prop :=
  update m = None /\ Forall wellFormedTriangle (triangles (state m)).

(** A scene with a projection matrix of 16 cells and ready meshes. *)
Definition sceneReady (s : Scene) : Prop :=
  List.length (projectionMatrix s) = 16%nat /\ Forall meshReady (objects s).


(** The mesh object after [k] runs of its [update] function. *)
Definition updated (k : nat) (m : Mesh) : Mesh := Nat.iter k Mesh.runUpdate m.

(** A mesh whose [update] function moves it by 1 along x. *)
Definition movingMesh : Mesh :=
  mkMesh (state (meshFrom cullSource))
    (Some (fun this =>
             Mesh.setPosition this
               (Some (Vector.x (position this) + 1)%float)
               (Some (Vector.y (position this)))
               (Vector.z (position this)))).

(** The matrices of the entries 1 to 9 and 1 to 16. *)
Definition matrix3 : Float32Array.t := Mat3x3.create [1; 2; 3;  4; 5; 6;  7; 8; 9].

Definition matrix4 : Float32Array.t :=
  Mat4x4.create [1; 2; 3; 4;  5; 6; 7; 8;  9; 10; 11; 12;  13; 14; 15; 16].

(** * Properties *)

(** ** Vectors *)

(** C1 (the code departs from the claim).  For [a = (0,1,1)] and
    [b = (0,0,1)], [a.cross(b)] is [(1,-1,0)]: its [y] is
    [a.z*b.x - a.z*b.z], where the standard cross product [(1,0,0)] has
    [a.z*b.x - a.x*b.z]; and [a.cross(b).dot(a)] is [-1], not [0]. *)
Theorem cross_is_not_the_standard_cross :
  let a := Vector3 0 1 1 1 in
  let b := Vector3 0 0 1 1 in
  Vector.cross a b = Vector.mk D3 1 (-1) (Some 0) 1 /\
  standard_cross a b = Vector.mk D3 1 0 (Some 0) 1 /\
  Vector.dot (Vector.cross a b) a = -1.
Proof. vm_compute. repeat split. Qed.

(** The [x] and [z] components of [cross] are those of the standard cross
    product, whatever the operands. *)
Lemma cross_x_z_standard (a b : Vector.t) :
  Vector.x (Vector.cross a b) = Vector.x (standard_cross a b) /\
  Vector.z (Vector.cross a b) = Vector.z (standard_cross a b).
Proof. split; reflexivity. Qed.

(** C2 (the code departs from the claim).  [normalise] on the 2D vector
    [(3, 4)] divides [x] by the magnitude 5, and then [y] by the magnitude
    of the vector it has already changed: [y] ends above [0.875] (not at
    [0.8]) and the magnitude above [1.125]. *)
Theorem normalise_does_not_give_a_unit_vector :
  let v := Vector.normalise (Vector2 3 4 1) in
  Vector.magnitude (Vector2 3 4 1) = 5 /\
  Vector.x v = 3 / 5 /\
  (0.875 <? Vector.y v) = true /\
  (1.125 <? Vector.magnitude v) = true.
Proof. vm_compute. repeat split. Qed.

(** A vector whose magnitude is zero is left as it is. *)
Lemma normalise_zero_magnitude (v : Vector.t) :
  (Vector.magnitude v =? 0) = true -> Vector.normalise v = v.
Proof. intros H. unfold Vector.normalise, neq. now rewrite H. Qed.

(** On a vector along the [x] axis [normalise] does give a unit vector. *)
Example normalise_x_axis :
  Vector.normalise (Vector3 5 0 0 1) = Vector.mk D3 1 0 (Some 0) 1.
Proof. reflexivity. Qed.

(** The operations that read [NaN] for a missing component return it. *)
Lemma add_nan (x : float) : x + nan = nan.
Proof.
  apply Prim2SF_inj. rewrite add_spec.
  change (Prim2SF nan) with S754_nan.
  unfold SF64add, SFadd. destruct (Prim2SF x) as [ | [] | | ]; reflexivity.
Qed.

Lemma sub_nan (x : float) : x - nan = nan.
Proof.
  apply Prim2SF_inj. rewrite sub_spec.
  change (Prim2SF nan) with S754_nan.
  unfold SF64sub, SFsub. destruct (Prim2SF x) as [ | [] | | ]; reflexivity.
Qed.

Lemma mul_nan (x : float) : x * nan = nan.
Proof.
  apply Prim2SF_inj. rewrite mul_spec.
  change (Prim2SF nan) with S754_nan.
  unfold SF64mul, SFmul. destruct (Prim2SF x); reflexivity.
Qed.

(** C8, as stated, fails: [add], [sub], [mult] and [dot] of a 2D and a 3D
    vector return a value.  With the 2D receiver [(1,2)] and the 3D
    argument [(1,2,3)], [add] returns the 2D vector [(2,4)], the [z] of
    the argument dropped; with the operands exchanged the results carry
    [NaN]. *)
Lemma mixed_dimensions_return_a_value :
  let a := Vector2 1 2 1 in
  let b := Vector3 1 2 3 1 in
  Vector.add a b = Vector.mk D2 2 4 None 1 /\
  Vector.sub a b = Vector.mk D2 0 0 None 1 /\
  Vector.mult a b = Vector.mk D2 1 4 None 1 /\
  Vector.dot a b = 5 /\
  Vector.add b a = Vector.mk D3 2 4 (Some nan) 1 /\
  Vector.dot b a = nan.
Proof. vm_compute. repeat split. Qed.

(** C8, amended.  The four operations never throw on operands of
    different dimensionality; the result has the dimensionality of the
    receiver.  A 2D receiver ignores the [z] of a 3D argument; a 3D
    receiver reads the missing [z] of a 2D argument as [undefined], so the
    [z] of the resulting vector, and the result of [dot], is [NaN]. *)
Theorem mixed_dimensions (a b : Vector.t) :
  Vector.type a = D2 -> Vector.type b = D3 -> Vector.z a = None ->
  (Vector.add a b = Vector.mk D2 (Vector.x a + Vector.x b) (Vector.y a + Vector.y b) None 1 /\
   Vector.sub a b = Vector.mk D2 (Vector.x a - Vector.x b) (Vector.y a - Vector.y b) None 1 /\
   Vector.mult a b = Vector.mk D2 (Vector.x a * Vector.x b) (Vector.y a * Vector.y b) None 1 /\
   Vector.dot a b = 0 + Vector.x a * Vector.x b + Vector.y a * Vector.y b) /\
  (Vector.add b a = Vector.mk D3 (Vector.x b + Vector.x a) (Vector.y b + Vector.y a) (Some nan) 1 /\
   Vector.sub b a = Vector.mk D3 (Vector.x b - Vector.x a) (Vector.y b - Vector.y a) (Some nan) 1 /\
   Vector.mult b a = Vector.mk D3 (Vector.x b * Vector.x a) (Vector.y b * Vector.y a) (Some nan) 1 /\
   Vector.dot b a = nan).
Proof.
  destruct a as [ta xa ya za wa], b as [tb xb yb zb wb]; simpl.
  intros -> -> ->.
  unfold Vector.add, Vector.sub, Vector.mult, Vector.dot; simpl.
  rewrite add_nan, sub_nan, mul_nan, add_nan.
  repeat split.
Qed.

Lemma mixed_dimensions_witness :
  Vector.add (Vector2 1 2 1) (Vector3 1 2 3 1) = Vector.mk D2 (1 + 1) (2 + 2) None 1.
Proof.
  exact (proj1 (proj1 (mixed_dimensions (Vector2 1 2 1) (Vector3 1 2 3 1)
                         eq_refl eq_refl eq_refl))).
Defined.

(** C10.  [add], [sub], [scale], [mult], [cross] and the 2D [normal]
    return a vector whose [w] is 1, whatever the [w] of the operands. *)
Theorem new_vectors_have_w_one (a b : Vector.t) (k : float) :
  Vector.w (Vector.add a b) = 1 /\
  Vector.w (Vector.sub a b) = 1 /\
  Vector.w (Vector.scale a k) = 1 /\
  Vector.w (Vector.mult a b) = 1 /\
  Vector.w (Vector.cross a b) = 1 /\
  Vector.w (Vector.normal a) = 1.
Proof.
  destruct a as [[] xa ya za wa]; repeat split; reflexivity.
Qed.

(** ** Matrices *)

(** The 3x3 identity has a 1 in every cell of the main diagonal. *)
Example identity_3x3 :
  Mat3x3.identity = Mat3x3.diagonal [1; 1; 1] /\
  Mat3x3.identity = [1; 0; 0;  0; 1; 0;  0; 0; 1].
Proof. split; reflexivity. Qed.

(** C3 (the code departs from the claim).  [identity()] is
    [diagonal(1, 1, 1)] for both families, so the 4x4 identity has a 0 in
    its last diagonal cell: it is not [diagonal(1, 1, 1, 1)], and the
    product of the matrix of the entries 1 to 16 with it has lost the last
    column. *)
Theorem identity_4x4_is_not_an_identity :
  Mat4x4.identity = [1; 0; 0; 0;  0; 1; 0; 0;  0; 0; 1; 0;  0; 0; 0; 0] /\
  Mat4x4.diagonal [1; 1; 1; 1]
    = [1; 0; 0; 0;  0; 1; 0; 0;  0; 0; 1; 0;  0; 0; 0; 1] /\
  Mat4x4.multiplyMatrix
    (Mat4x4.create [1; 2; 3; 4;  5; 6; 7; 8;  9; 10; 11; 12;  13; 14; 15; 16])
    Mat4x4.identity
    = Normal [1; 2; 3; 0;  5; 6; 7; 0;  9; 10; 11; 0;  13; 14; 15; 0].
Proof. vm_compute. repeat split. Qed.

(** The 3x3 identity does give a matrix back. *)
Example multiply_by_identity_3x3 :
  let m := Mat3x3.create [1; 2; 3;  4; 5; 6;  7; 8; 9] in
  Mat3x3.multiplyMatrix m Mat3x3.identity = Normal m.
Proof. vm_compute. reflexivity. Qed.

(** With [diagonal(1, 1, 1, 1)] the same product gives the matrix back. *)
Example multiply_by_diagonal_ones :
  let m := Mat4x4.create [1; 2; 3; 4;  5; 6; 7; 8;  9; 10; 11; 12;  13; 14; 15; 16] in
  Mat4x4.multiplyMatrix m (Mat4x4.diagonal [1; 1; 1; 1]) = Normal m.
Proof. vm_compute. reflexivity. Qed.

(** ** Meshes *)

(** C9.  The mesh built from
    ["v 0 0 0\nv 1 0 0\nv 0 1 0\nf 1 2 3\nc 120 50 50"] has exactly one
    triangle, with the vertices (0,0,0), (1,0,0), (0,1,0) in that order
    and the colour h 120, s 50, l 50, a 1. *)
Theorem minimal_mesh_has_one_triangle :
  exists m,
    Mesh.new triangleSource = Normal m /\
    triangles (state m) =
      [ Triangle.mk [Vector3 0 0 0 1; Vector3 1 0 0 1; Vector3 0 1 0 1]
                    (Color.mk (Some 120) (Some 50) (Some 50) (Some 1)) ].
Proof. eexists. split; vm_compute; reflexivity. Qed.

(** The parser keeps the first three fields of a line only, so the alpha
    of a colour is 1 even when a fourth field is written. *)
Example alpha_field_is_not_read :
  map (fun t => Color.a (Triangle.color t))
      (triangles (state (meshFrom
         (lines ["v 0 0 0"; "v 1 0 0"; "v 0 1 0"; "f 1 2 3"; "c 120 50 50 0.5"]%string))))
  = [Some 1].
Proof. vm_compute. reflexivity. Qed.

Lemma length_store {A : Type} (arr : list A) (i : nat) (x : A) :
  (i <= List.length arr)%nat ->
  List.length (store arr i x) = Nat.max (S i) (List.length arr).
Proof.
  revert i; induction arr as [ | hd tl IH]; intros [ | i] Hi; simpl in *;
    try lia.
  rewrite IH by lia. lia.
Qed.

Lemma updateFace_spec (face : Row) (i : nat) (this this' : MeshState) :
  Mesh.updateFace face i this = (Normal tt, this') ->
  faces this' = faces this /\
  exists tri, triangles this' = store (triangles this) i tri.
Proof.
  unfold Mesh.updateFace.
  destruct (Triangle.new _ _) as [tri | e]; [ | discriminate].
  destruct (nth_error (faceColor this) i) as [c | ]; [ | discriminate].
  intros [= <-]. split; [reflexivity | eexists; reflexivity].
Qed.

Lemma forEach_updateFace_length (fs : list Row) :
  forall (i : nat) (this this' : MeshState),
    (i <= List.length (triangles this))%nat ->
    forEach Mesh.updateFace fs i this = (Normal tt, this') ->
    faces this' = faces this /\
    List.length (triangles this')
      = Nat.max (i + List.length fs) (List.length (triangles this)).
Proof.
  induction fs as [ | face fs IH]; intros i this this' Hi; simpl.
  - intros [= <-]. split; [reflexivity | lia].
  - destruct (Mesh.updateFace face i this) as [[[] | e] this1] eqn:E;
      [ | discriminate].
    apply updateFace_spec in E. destruct E as [Hf [tri Ht]].
    intros H. apply IH in H.
    + destruct H as [H1 H2]. rewrite H1, H2, Hf, Ht.
      split; [reflexivity | ]. rewrite length_store by exact Hi. lia.
    + rewrite Ht, length_store by exact Hi. lia.
Qed.

(** [updateGeometry] overwrites the triangles at the indices of the faces
    and never shortens the list: when it returns, the list is as long as
    the longer of the face list and the triangle list it started from. *)
Lemma updateGeometry_length (this this' : MeshState) :
  Mesh.updateGeometry this = (Normal tt, this') ->
  List.length (triangles this')
    = Nat.max (List.length (faces this)) (List.length (triangles this)).
Proof.
  intros H. apply forEach_updateFace_length in H; [ | lia].
  destruct H as [_ H]. exact H.
Qed.

(** C5 (the code departs from the claim).  On the mesh of two faces, the
    second face is removed and [updateGeometry] is called again: the call
    returns, one face is left, and the triangle list still has two
    entries, the second being the triangle of the removed face. *)
Theorem updateGeometry_keeps_stale_triangles :
  exists m this',
    Mesh.new twoFaceSource = Normal m /\
    List.length (triangles (state m)) = 2%nat /\
    Mesh.updateGeometry (Mesh.set_faces (state m) (removelast (faces (state m))))
      = (Normal tt, this') /\
    List.length (faces this') = 1%nat /\
    List.length (triangles this') = 2%nat /\
    nth_error (triangles this') 1 = nth_error (triangles (state m)) 1.
Proof. do 2 eexists. repeat split; vm_compute; reflexivity. Qed.

(** ** Scenes *)

(** C7.  [scene.add(x)] throws a [TypeError] and leaves the scene as it
    was when [x] is not a [Mesh]; it appends [x] to the object list when
    it is one. *)
Theorem add_takes_meshes_only (this : Scene) (x : JsValue) :
  (instanceof_Mesh x = false ->
   exists msg, Scene.add this x = (Throw (TypeError msg), this)) /\
  (forall m, x = JsMesh m ->
   exists this',
     Scene.add this x = (Normal tt, this') /\
     objects this' = objects this ++ [m]).
Proof.
  split.
  - destruct x; simpl; intros H; try discriminate; eexists; reflexivity.
  - intros m ->. eexists. split; reflexivity.
Qed.

Lemma add_takes_meshes_only_witness :
  (exists msg,
     Scene.add (Scene.new 300 150) (JsNumber 1)
       = (Throw (TypeError msg), Scene.new 300 150)) /\
  (exists this',
     Scene.add (Scene.new 300 150) (JsMesh emptyMesh) = (Normal tt, this') /\
     objects this' = objects (Scene.new 300 150) ++ [emptyMesh]).
Proof.
  split.
  - exact (proj1 (add_takes_meshes_only (Scene.new 300 150) (JsNumber 1)) eq_refl).
  - exact (proj2 (add_takes_meshes_only (Scene.new 300 150) _) _ eq_refl).
Defined.

(** *** The depth sort *)

Lemma number_of_bool_not_negative (b : bool) :
  (JsArray.number_of_bool b <? 0) = false.
Proof. destruct b; reflexivity. Qed.

Lemma extendRun_never_less {A : Type} (compare : A -> A -> float) :
  (forall a b, (compare a b <? 0) = false) ->
  forall (rest : list A) (previous : A) (n : nat),
    JsArray.extendRun compare false previous rest n = (n + List.length rest)%nat.
Proof.
  intros H rest; induction rest as [ | current rest IH]; intros previous n; simpl.
  - lia.
  - rewrite H, IH. lia.
Qed.

(** A comparator that never returns a negative number makes [sort] leave
    the array as it is: the whole array is one ascending run. *)
Lemma sort_never_less {A : Type} (compare : A -> A -> float) :
  (forall a b, (compare a b <? 0) = false) ->
  forall arr : list A, JsArray.sort compare arr = arr.
Proof.
  intros H arr. unfold JsArray.sort.
  destruct arr as [ | low [ | high rest]]; try reflexivity.
  cbn [List.length Nat.ltb Nat.leb JsArray.countAndMakeRun].
  rewrite H, extendRun_never_less by exact H.
  replace (List.length (low :: high :: rest) - (2 + List.length rest))%nat
    with O by (simpl; lia).
  reflexivity.
Qed.

(** [render] paints the render list in the order in which [process]
    filled it. *)
Lemma paintOrder_unchanged (toRaster : list PaintRecord.t) :
  Scene.paintOrder toRaster = toRaster.
Proof.
  apply sort_never_less. intros a b. apply number_of_bool_not_negative.
Qed.

(** The comparator of [render] is not consistent: 5 compares equal to 1,
    and 1 does not compare equal to 5. *)
Example comparefn_not_symmetric :
  Scene.comparefn (recordAt 5) (recordAt 1) = 0 /\
  Scene.comparefn (recordAt 1) (recordAt 5) = 1 /\
  JsArray.symmetric_at Scene.comparefn (recordAt 5) (recordAt 1) = false.
Proof. repeat split. Qed.

(** With a comparator that returns a number, [b.zAverage - a.zAverage],
    the same [sort] orders the depths 5, 1, 3 farthest first. *)
Example sort_with_a_numeric_comparator :
  map PaintRecord.zAverage
    (JsArray.sort (fun a b => PaintRecord.zAverage b - PaintRecord.zAverage a)
                  [recordAt 5; recordAt 1; recordAt 3])
  = [5; 3; 1].
Proof. vm_compute. reflexivity. Qed.

(** C4 (the code departs from the claim).  A scene holds the mesh of
    three triangles at the depths 5, 1, 3 (hues 10, 20, 30).  [process]
    queues the records at the depths 5, 1, 3, the sort leaves that order,
    and [render] fills the triangles in the order of the hues 10, 20, 30,
    that is of the depths 5, 1, 3 and not 5, 3, 1. *)
Theorem render_does_not_sort_by_depth :
  let m := meshFrom depthSource in
  let scene := snd (Scene.add (Scene.new 300 150) (JsMesh m)) in
  map PaintRecord.zAverage
      (toRaster (snd (snd (Mesh.process taylorHost m scene)))) = [5; 1; 3] /\
  map PaintRecord.zAverage
      (Scene.paintOrder [recordAt 5; recordAt 1; recordAt 3]) = [5; 1; 3] /\
  fst (Scene.render taylorHost scene) = Normal tt /\
  fillHues (ctx (snd (Scene.render taylorHost scene)))
    = [Some 10; Some 20; Some 30].
Proof. vm_compute. repeat split. Qed.

(** *** Back-face culling *)

Lemma length_set (m : Float32Array.t) (k : nat) (a : float) :
  List.length (Float32Array.set m k a) = List.length m.
Proof.
  revert k; induction m as [ | hd tl IH]; intros [ | k]; simpl; auto.
Qed.

Lemma length_create (n : nat) (args : list float) :
  List.length (create n args) = (n * n)%nat.
Proof. unfold create. now rewrite length_map, length_seq. Qed.

Lemma fold_left_preserves {A B : Type} (P : A -> Prop) (f : A -> B -> A) :
  (forall a b, P a -> P (f a b)) ->
  forall (l : list B) (a : A), P a -> P (fold_left f l a).
Proof.
  intros Hf l; induction l as [ | b l IH]; intros a Ha; simpl; auto.
Qed.

Lemma length_multiplyMatrix (n : nat) (m1 m2 r : Float32Array.t) :
  multiplyMatrix n m1 m2 = Normal r -> List.length r = (n * n)%nat.
Proof.
  unfold multiplyMatrix. destruct (neq _ _); [discriminate | ].
  intros [= <-].
  apply (fold_left_preserves (fun m => List.length m = (n * n)%nat)).
  - intros a i Ha.
    apply (fold_left_preserves (fun m => List.length m = (n * n)%nat)); auto.
    intros a' j Ha'. now rewrite length_set.
  - apply length_create.
Qed.

Lemma multiplyMatrix_16 (m1 m2 : Float32Array.t) :
  List.length m1 = 16%nat -> List.length m2 = 16%nat ->
  exists r, Mat4x4.multiplyMatrix m1 m2 = Normal r /\ List.length r = 16%nat.
Proof.
  intros H1 H2.
  destruct (Mat4x4.multiplyMatrix m1 m2) as [r | e] eqn:E.
  - exists r. split; [reflexivity | ].
    apply length_multiplyMatrix in E. exact E.
  - exfalso. revert E.
    unfold Mat4x4.multiplyMatrix, multiplyMatrix, Float32Array.length.
    rewrite H1, H2.
    change (neq _ _) with false. cbv iota. discriminate.
Qed.

(** The rotation matrix of [process] is always built, and has 16 cells. *)
Lemma mRotate_normal (host : Host) (this : MeshState) (scene : Scene) :
  exists m, Mesh.mRotate host this scene = Normal m /\ List.length m = 16%nat.
Proof.
  unfold Mesh.mRotate. apply multiplyMatrix_16.
  - unfold Mat4x4.pitchRotation. rewrite !length_set. apply length_create.
  - unfold Mat4x4.rollRotation. rewrite !length_set. apply length_create.
Qed.

Lemma type_add (a b : Vector.t) : Vector.type (Vector.add a b) = Vector.type a.
Proof. destruct a as [[] xa ya za wa]; reflexivity. Qed.

Lemma type_mult (a b : Vector.t) : Vector.type (Vector.mult a b) = Vector.type a.
Proof. destruct a as [[] xa ya za wa]; reflexivity. Qed.

(** A 4x4 matrix times a [Vector3] is a [Vector3]. *)
Lemma multiplyVector_Vector3 (m : Float32Array.t) (v : Vector.t) :
  List.length m = 16%nat -> Vector.type v = D3 ->
  exists r, Mat4x4.multiplyVector m v = Normal r /\ Vector.type r = D3.
Proof.
  intros Hm Hv.
  unfold Mat4x4.multiplyVector, multiplyVector, Float32Array.length,
    Vector.components.
  rewrite Hm, Hv.
  change (neq _ _) with false. cbv iota.
  eexists. split; reflexivity.
Qed.

Lemma store_at_length {A : Type} (arr : list A) (x : A) :
  store arr (List.length arr) x = arr ++ [x].
Proof. induction arr as [ | hd tl IH]; simpl; [reflexivity | now rewrite IH]. Qed.

(** A loop whose body stores one [Vector3] per element and never throws
    fills the array with as many [Vector3] objects as it visits. *)
Lemma forEach_collect {A : Type}
    (body : A -> nat -> list Vector.t -> completion unit * list Vector.t)
    (P : A -> Prop) :
  (forall a i acc, P a ->
     exists r, body a i acc = (Normal tt, store acc i r) /\ Vector.type r = D3) ->
  forall (arr : list A) (acc : list Vector.t),
    Forall P arr ->
    exists out,
      forEach body arr (List.length acc) acc = (Normal tt, acc ++ out) /\
      List.length out = List.length arr /\
      Forall (fun v => Vector.type v = D3) out.
Proof.
  intros Hbody arr; induction arr as [ | a arr IH]; intros acc Harr; simpl.
  - exists []. rewrite app_nil_r. repeat split. constructor.
  - inversion Harr as [ | ? ? Ha Harr']; subst.
    destruct (Hbody a (List.length acc) acc Ha) as [r [-> Hr]].
    rewrite store_at_length.
    destruct (IH (acc ++ [r]) Harr') as [out [Hout [Hlen Hall]]].
    replace (S (List.length acc)) with (List.length (acc ++ [r]))
      by (rewrite length_app; simpl; lia).
    rewrite Hout. exists (r :: out).
    rewrite <- app_assoc. simpl. repeat split; auto.
Qed.

Lemma transform_normal (this : MeshState) (m : Float32Array.t) (tri : Triangle.t) :
  List.length m = 16%nat -> wellFormedTriangle tri ->
  exists transformed,
    Mesh.transform this m tri = (Normal tt, transformed) /\
    List.length transformed = 3%nat /\
    Forall (fun v => Vector.type v = D3) transformed.
Proof.
  intros Hm [Hlen Hall]. unfold Mesh.transform.
  destruct (forEach_collect
              (fun vertex i (transformed : list Vector.t) =>
                 match Mat4x4.multiplyVector m
                         (Vector.add (Vector.mult vertex (scale this)) (position this))
                 with
                 | Normal t => (Normal tt, store transformed i t)
                 | Throw e => (Throw e, transformed)
                 end)
              (fun v => Vector.type v = D3)) with (arr := Triangle.vertices tri)
    (acc := @nil Vector.t) as [out [H1 [H2 H3]]].
  - intros a i acc Ha.
    destruct (multiplyVector_Vector3 m
                (Vector.add (Vector.mult a (scale this)) (position this)) Hm)
      as [r [Hr Ht]].
    + now rewrite type_add, type_mult.
    + exists r. now rewrite Hr.
  - exact Hall.
  - exists out. simpl in H1. rewrite H1. repeat split; auto. congruence.
Qed.

Lemma project_normal (scene : Scene) (transformed : list Vector.t) :
  List.length (projectionMatrix scene) = 16%nat ->
  Forall (fun v => Vector.type v = D3) transformed ->
  exists projected, Mesh.project scene transformed = (Normal tt, projected).
Proof.
  intros Hm Hall. unfold Mesh.project.
  destruct (forEach_collect
              (fun tri i (projected : list Vector.t) =>
                 match Mat4x4.multiplyVector (projectionMatrix scene) tri with
                 | Normal p =>
                     let p := Vector.set p Cx (Vector.x p + 1) in
                     let p := Vector.set p Cy (Vector.y p + 1) in
                     let p := Vector.set p Cx (Vector.x p * (width scene * 0.5)) in
                     let p := Vector.set p Cy (Vector.y p * (height scene * 0.5)) in
                     (Normal tt, store projected i p)
                 | Throw e => (Throw e, projected)
                 end)
              (fun v => Vector.type v = D3)) with (arr := transformed)
    (acc := @nil Vector.t) as [out [H1 _]].
  - intros a i acc Ha.
    destruct (multiplyVector_Vector3 (projectionMatrix scene) a Hm Ha)
      as [r [Hr Ht]].
    rewrite Hr. eexists. split; [reflexivity | exact Ht].
  - exact Hall.
  - exists out. exact H1.
Qed.

Lemma faceNormal_normal (transformed : list Vector.t) :
  List.length transformed = 3%nat ->
  exists n, Mesh.faceNormal transformed = Normal n.
Proof.
  destruct transformed as [ | t0 [ | t1 [ | t2 rest]]]; try discriminate.
  intros _. eexists. reflexivity.
Qed.

(** The scene after the records [rs] have been pushed. *)
Lemma fold_push_toRaster (rs : list PaintRecord.t) :
  forall scene,
    toRaster (fold_left Mesh.push rs scene) = toRaster scene ++ rs /\
    projectionMatrix (fold_left Mesh.push rs scene) = projectionMatrix scene.
Proof.
  induction rs as [ | r rs IH]; intros scene; simpl.
  - now rewrite app_nil_r.
  - destruct (IH (Mesh.push scene r)) as [H1 H2]. rewrite H1, H2. simpl.
    now rewrite <- app_assoc.
Qed.

(** Whenever the loop over the triangles completes, it has pushed, in
    order, the record of every triangle that passes the test, and nothing
    else. *)
Lemma forEach_processTriangle (this : MeshState) (m : Float32Array.t) :
  forall (tris : list Triangle.t) (i : nat) (scene0 scene scene' : Scene),
    Mesh.project scene = Mesh.project scene0 ->
    forEach (Mesh.processTriangle this m) tris i scene = (Normal tt, scene') ->
    exists records,
      scene' = fold_left Mesh.push records scene /\
      Forall2 (recordOf this scene0 m) (filter (frontFacing this m) tris) records.
Proof.
  induction tris as [ | tri tris IH]; intros i scene0 scene scene' Hproj.
  - intros [= <-]. exists []. split; [reflexivity | constructor].
  - cbn [forEach filter].
    destruct (Mesh.processTriangle this m tri i scene) as [[[] | e] scene1] eqn:E;
      [ | discriminate].
    intros Hrun. revert E. unfold Mesh.processTriangle, frontFacing.
    destruct (Mesh.transform this m tri) as [[[] | e] tr] eqn:Htr;
      [ | discriminate].
    destruct (Mesh.faceNormal tr) as [n | e]; [ | discriminate].
    destruct (to_number (Vector.z n) <? 0).
    + destruct (Mesh.project scene tr) as [[[] | e] pr] eqn:Hpr; [ | discriminate].
      intros [= <-].
      apply IH with (scene0 := scene0) in Hrun; [ | exact Hproj].
      destruct Hrun as [records [Hs Hrec]].
      eexists (_ :: records). split; [exact Hs | ].
      constructor; [ | exact Hrec].
      exists tr, pr. rewrite <- Hproj. repeat split; assumption.
    + intros [= <-].
      destruct (IH (S i) scene0 scene scene' Hproj Hrun) as [records [Hs Hrec]].
      exists records. split; assumption.
Qed.

(** The loop completes on triangles of three [Vector3] vertices. *)
Lemma forEach_processTriangle_normal (this : MeshState) (m : Float32Array.t) :
  List.length m = 16%nat ->
  forall (tris : list Triangle.t) (i : nat) (scene : Scene),
    Forall wellFormedTriangle tris ->
    List.length (projectionMatrix scene) = 16%nat ->
    exists scene',
      forEach (Mesh.processTriangle this m) tris i scene = (Normal tt, scene').
Proof.
  intros Hm tris; induction tris as [ | tri tris IH]; intros i scene Hwf Hpm.
  - eexists. reflexivity.
  - inversion Hwf as [ | ? ? Htri Hwf']; subst.
    destruct (transform_normal this m tri Hm Htri) as [tr [Htr [Hlen Hd3]]].
    destruct (faceNormal_normal tr Hlen) as [n Hn].
    cbn [forEach]. unfold Mesh.processTriangle at 1.
    rewrite Htr, Hn.
    destruct (to_number (Vector.z n) <? 0).
    + destruct (project_normal scene tr Hpm Hd3) as [pr Hpr].
      rewrite Hpr. apply IH; assumption.
    + apply IH; assumption.
Qed.

(** C6 (the code departs from the claim).  The triangle of [steepSource]
    has the edges [v1 - v0 = (1, 0, 1e200)] and [v2 - v0 = (0, -1, -1e200)];
    mesh and camera are not moved, so the transformed vertices are the
    vertices.  The cross product of the edges is [(1e200, 1e200, -1)] and
    its normalisation has a negative [z]: the claim has the triangle
    appended.  But [Vector3.cross] computes [y] as
    [this.z * vec.x - this.z * vec.z], which overflows to [Infinity] here;
    [normalise] turns [y] and [z] into [NaN], the test [cross.z < 0] fails
    and [process] appends nothing.  With the cross product in the place of
    [cross], the [normalise] of the code keeps [z] negative. *)
Theorem process_culls_a_front_face :
  let scene := Scene.new 300 150 in
  exists mesh tri v0 v1 v2 mRotate,
    Mesh.new steepSource = Normal mesh /\
    triangles (state mesh) = [tri] /\
    Mesh.mRotate taylorHost (state mesh) scene = Normal mRotate /\
    Mesh.transform (state mesh) mRotate tri = (Normal tt, [v0; v1; v2]) /\
    Vector.z (standard_cross (Vector.sub v1 v0) (Vector.sub v2 v0)) = Some (-1) /\
    (to_number (Vector.z (standard_normal v0 v1 v2)) <? 0) = true /\
    (to_number (Vector.z (Vector.normalise
                            (standard_cross (Vector.sub v1 v0) (Vector.sub v2 v0))))
       <? 0) = true /\
    Vector.y (Vector.cross (Vector.sub v1 v0) (Vector.sub v2 v0)) = infinity /\
    Mesh.faceNormal [v0; v1; v2] = Normal (Vector.mk D3 0 nan (Some nan) 1) /\
    Mesh.process taylorHost mesh scene = (Normal tt, (mesh, scene)).
Proof.
  cbv zeta. do 6 eexists.
  split; [vm_compute; reflexivity | ].
  split; [vm_compute; reflexivity | ].
  split; [vm_compute; reflexivity | ].
  split; [vm_compute; reflexivity | ].
  repeat split; vm_compute; reflexivity.
Qed.

(** Of the two triangles of [cullSource], the one that faces the camera
    is the only one in the render list after [process]. *)
Example process_keeps_the_front_face :
  map (fun r => Color.h (PaintRecord.color r))
      (toRaster (snd (snd (Mesh.process taylorHost (meshFrom cullSource)
                                        (Scene.new 300 150)))))
  = [Some 20].
Proof. vm_compute. reflexivity. Qed.

(** What the constructors build is well formed. *)
Lemma new_Triangle_wellFormed (a b c : option Row) (col : Color.t) (t : Triangle.t) :
  Triangle.new [a; b; c] col = Normal t -> wellFormedTriangle t.
Proof.
  destruct a, b, c; simpl; intros [= <-]; split; simpl; repeat constructor.
Qed.

Lemma Forall_store {A : Type} (P : A -> Prop) (arr : list A) (i : nat) (x : A) :
  Forall P arr -> P x -> Forall P (store arr i x).
Proof.
  intros Harr Hx; revert i; induction Harr as [ | hd tl Hhd Htl IH];
    intros [ | i]; simpl; repeat constructor; auto.
Qed.

Lemma forEach_updateFace_wellFormed (fs : list Row) :
  forall (i : nat) (this this' : MeshState),
    Forall wellFormedTriangle (triangles this) ->
    forEach Mesh.updateFace fs i this = (Normal tt, this') ->
    Forall wellFormedTriangle (triangles this').
Proof.
  induction fs as [ | face fs IH]; intros i this this' Hwf; simpl.
  - now intros [= <-].
  - destruct (Mesh.updateFace face i this) as [[[] | e] this1] eqn:E;
      [ | discriminate].
    apply IH. revert E. unfold Mesh.updateFace.
    destruct (Triangle.new _ _) as [tri | e] eqn:Etri; [ | discriminate].
    destruct (nth_error (faceColor this) i) as [c | ]; [ | discriminate].
    intros [= <-]. simpl. apply Forall_store; [exact Hwf | ].
    apply new_Triangle_wellFormed in Etri. exact Etri.
Qed.

Lemma updateGeometry_wellFormed (this this' : MeshState) :
  Forall wellFormedTriangle (triangles this) ->
  Mesh.updateGeometry this = (Normal tt, this') ->
  Forall wellFormedTriangle (triangles this').
Proof. apply forEach_updateFace_wellFormed. Qed.

Lemma new_Mesh_wellFormed (src : string) (m : Mesh) :
  Mesh.new src = Normal m ->
  Forall wellFormedTriangle (triangles (state (Mesh.runUpdate m))).
Proof.
  unfold Mesh.new.
  destruct (Mesh.updateGeometry _) as [[[] | e] this'] eqn:E; [ | discriminate].
  intros [= <-]. apply updateGeometry_wellFormed in E; [exact E | constructor].
Qed.

Lemma new_Scene_projectionMatrix (w h : float) :
  List.length (projectionMatrix (Scene.new w h)) = 16%nat.
Proof.
  unfold Scene.new, Scene.updateProjectionMatrix, Scene.set_projectionMatrix.
  cbn [projectionMatrix]. rewrite !length_set. apply length_create.
Qed.

(** * Further properties *)

(** ** Vectors *)

(** X1.  The constructors build well-shaped vectors; [add], [sub], [mult],
    [scale] and [normal] return a well-shaped vector of the type of the
    receiver, whatever the argument; [normalise] keeps the shape, the type
    and the [w] of a well-shaped vector. *)
Theorem vector_operations_keep_shape (a b : Vector.t) (k x y z w : float) :
  wellShaped (Vector2 x y w) /\ wellShaped (Vector3 x y z w) /\
  (wellShaped (Vector.add a b) /\ Vector.type (Vector.add a b) = Vector.type a) /\
  (wellShaped (Vector.sub a b) /\ Vector.type (Vector.sub a b) = Vector.type a) /\
  (wellShaped (Vector.mult a b) /\ Vector.type (Vector.mult a b) = Vector.type a) /\
  (wellShaped (Vector.scale a k) /\ Vector.type (Vector.scale a k) = Vector.type a) /\
  (wellShaped (Vector.normal a) /\ Vector.type (Vector.normal a) = Vector.type a) /\
  (wellShaped a ->
   wellShaped (Vector.normalise a) /\
   Vector.type (Vector.normalise a) = Vector.type a /\
   Vector.w (Vector.normalise a) = Vector.w a).
Proof.
  repeat match goal with |- _ /\ _ => split end;
    try (destruct a as [[] xa ya za wa]; unfold wellShaped; cbn;
         first [reflexivity | discriminate]).
  intros Ha. unfold Vector.normalise.
  destruct (neq (Vector.magnitude a) 0); [ | repeat split; assumption].
  destruct a as [[] xa ya za wa]; unfold wellShaped in *; cbn in *;
    repeat split; first [assumption | discriminate].
Qed.

Lemma vector_operations_keep_shape_witness :
  wellShaped (Vector.normalise (Vector3 1 2 2 1)) /\
  Vector.type (Vector.normalise (Vector3 1 2 2 1)) = Vector.type (Vector3 1 2 2 1) /\
  Vector.w (Vector.normalise (Vector3 1 2 2 1)) = Vector.w (Vector3 1 2 2 1).
Proof.
  destruct (vector_operations_keep_shape (Vector3 1 2 2 1) (Vector3 0 0 0 1)
              1 0 0 0 1) as [_ [_ [_ [_ [_ [_ [_ H]]]]]]].
  apply H. discriminate.
Defined.

Lemma or_else_not_nan (o : option float) : is_nan (or_else o 0) = false.
Proof.
  destruct o as [a | ]; [ | reflexivity]. unfold or_else, truthy.
  destruct (is_zero a), (is_nan a) eqn:E; cbn; try reflexivity; exact E.
Qed.

Lemma or_else_zero (o : option float) :
  is_zero (or_else o 0) = true -> or_else o 0 = 0.
Proof.
  destruct o as [a | ]; [ | reflexivity]. unfold or_else, truthy.
  destruct (is_zero a) eqn:Ez; cbn; [reflexivity | ].
  destruct (is_nan a); cbn; [reflexivity | ]. unfold is_zero in *. congruence.
Qed.

(** X2.  The constructors store [args[i] || 0]: no spatial component of a
    new [Vector2] or [Vector3] is [NaN], and none is [-0] (a component
    that is zero is [+0]). *)
Theorem constructors_store_no_nan (x y z w : float) :
  Forall (fun c => is_nan c = false /\ (is_zero c = true -> c = 0))
         [Vector.x (Vector2 x y w); Vector.y (Vector2 x y w);
          Vector.x (Vector3 x y z w); Vector.y (Vector3 x y z w);
          to_number (Vector.z (Vector3 x y z w))] /\
  Vector.w (Vector2 x y w) = w /\ Vector.w (Vector3 x y z w) = w.
Proof.
  split; [ | split; reflexivity].
  repeat constructor;
    first [exact (or_else_not_nan (Some _)) | exact (or_else_zero (Some _))].
Qed.

Lemma Vector3_clean (x y z w : float) :
  let r := Vector.Vector3 x y z w in
  wellShaped r /\
  is_nan (Vector.x r) = false /\ is_nan (Vector.y r) = false /\
  (forall c, Vector.z r = Some c -> is_nan c = false).
Proof.
  unfold wellShaped, Vector.Vector3; cbn [Vector.type Vector.x Vector.y Vector.z].
  split; [discriminate | ]. split; [exact (or_else_not_nan (Some _)) | ].
  split; [exact (or_else_not_nan (Some _)) | ].
  intros c [= <-]. exact (or_else_not_nan (Some _)).
Qed.

Lemma Vector2_clean (x y w : float) :
  let r := Vector.Vector2 x y w in
  wellShaped r /\
  is_nan (Vector.x r) = false /\ is_nan (Vector.y r) = false /\
  (forall c, Vector.z r = Some c -> is_nan c = false).
Proof.
  unfold wellShaped, Vector.Vector2; cbn [Vector.type Vector.x Vector.y Vector.z].
  split; [reflexivity | ]. split; [exact (or_else_not_nan (Some _)) | ].
  split; [exact (or_else_not_nan (Some _)) | ]. discriminate.
Qed.

(** X3.  Whenever a matrix-vector product returns, its result is a
    well-shaped vector without [NaN] in [x], [y] or [z]: the result goes
    through a constructor, which reads a [NaN] sum as 0. *)
Theorem multiplyVector_result_has_no_nan (n : nat) (m : Float32Array.t) (v r : Vector.t) :
  multiplyVector n m v = Normal r ->
  wellShaped r /\
  is_nan (Vector.x r) = false /\ is_nan (Vector.y r) = false /\
  (forall c, Vector.z r = Some c -> is_nan c = false).
Proof.
  unfold multiplyVector. destruct (neq _ _); [discriminate | ].
  destruct (Nat.eqb _ 4); intros [= <-];
    [apply Vector3_clean | apply Vector2_clean].
Qed.

Lemma multiplyVector_result_has_no_nan_witness :
  wellShaped (Vector.mk D3 1 4 (Some 9) 4) /\
  is_nan 1 = false /\ is_nan 4 = false /\
  (forall c, Some 9 = Some c -> is_nan c = false).
Proof.
  exact (multiplyVector_result_has_no_nan 4 (Mat4x4.diagonal [1; 2; 3; 4])
           (Vector3 1 2 3 1) (Vector.mk D3 1 4 (Some 9) 4) eq_refl).
Defined.

(** X4.  [Vector.clone] throws an [Error] on a value that is no vector;
    the clone of a well-shaped vector has its type and its [x], [y], [z],
    and the [w] 1: the [w] of the original is not copied. *)
Theorem Vector_clone_resets_w (vec : JsValue) :
  (forall v, vec = JsVector v -> wellShaped v ->
     Vector_clone vec
       = Normal (Vector.mk (Vector.type v) (Vector.x v) (Vector.y v) (Vector.z v) 1)) /\
  ((forall v, vec <> JsVector v) ->
     Vector_clone vec = Throw (Error "Cannot clone Vector from a non-Vector Object")).
Proof.
  split.
  - intros v -> Hv. destruct v as [[] xv yv zv wv]; unfold wellShaped in Hv;
      cbn in Hv.
    + subst. reflexivity.
    + destruct zv; [reflexivity | contradiction].
  - intros H. destruct vec; try reflexivity. exfalso. apply (H v). reflexivity.
Qed.

Lemma Vector_clone_resets_w_witness :
  Vector_clone (JsVector (Vector3 1 2 3 5)) = Normal (Vector.mk D3 1 2 (Some 3) 1) /\
  Vector_clone (JsNumber 1)
    = Throw (Error "Cannot clone Vector from a non-Vector Object").
Proof.
  destruct (Vector_clone_resets_w (JsVector (Vector3 1 2 3 5))) as [H _].
  destruct (Vector_clone_resets_w (JsNumber 1)) as [_ H'].
  split.
  - apply (H (Vector3 1 2 3 5) eq_refl). discriminate.
  - apply H'. discriminate.
Defined.

(** ** Matrices *)

Lemma stable_fround (x : float) : stable x -> fround x = x.
Proof.
  unfold stable, or_else. destruct (truthy x); intros H; [exact H | ].
  rewrite <- H. reflexivity.
Qed.

Ltac explode m :=
  repeat (destruct m as [ | ? m]; [discriminate | ]);
  destruct m; [ | discriminate].

Ltac stable_cells :=
  repeat match goal with
         | H : Forall stable (_ :: _) |- _ => inversion H; clear H; subst
         | H : Forall stable [] |- _ => clear H
         end.

Ltac matrix_cells m :=
  explode m; stable_cells;
  cbv - [fround or_else stable];
  repeat match goal with
         | H : stable ?x |- _ =>
             let E := fresh in
             pose proof (stable_fround x H) as E; unfold stable in H;
             repeat (rewrite H || rewrite E); clear H E
         end.

Lemma map_seq_nth_error {A B : Type} (g : option A -> B) (m : list A) :
  forall k, map (fun i => g (nth_error m (i - k))) (seq k (List.length m))
            = map (fun a => g (Some a)) m.
Proof.
  induction m as [ | a m IH]; intros k; simpl; [reflexivity | ].
  replace (k - k)%nat with O by lia. simpl. f_equal.
  rewrite <- (IH (S k)). apply map_ext_in. intros i Hi. apply in_seq in Hi.
  replace (i - k)%nat with (S (i - S k)) by lia. reflexivity.
Qed.

(** X5.  [clone(m)] always has [length * length] cells, whatever the size
    of [m] (cells beyond are dropped, missing cells are 0); it is equal to
    [m] when [m] has that many cells and each is stable, that is neither
    [NaN] nor [-0]. *)
Theorem clone_copies_stable_cells (n : nat) (m : Float32Array.t) :
  List.length (clone n m) = (n * n)%nat /\
  (List.length m = (n * n)%nat -> Forall stable m -> clone n m = m).
Proof.
  split; [apply length_create | ].
  intros Hlen Hst. unfold clone, create. rewrite <- Hlen.
  rewrite (map_ext _ (fun i => fround (or_else (nth_error m (i - 0)) 0))).
  - rewrite (map_seq_nth_error (fun o => fround (or_else o 0))).
    clear Hlen. induction Hst as [ | a m Ha Hm IH]; cbn [map]; [reflexivity | ].
    f_equal; [exact Ha | exact IH].
  - intros i. now rewrite Nat.sub_0_r.
Qed.

Lemma matrix3_stable : Forall stable matrix3.
Proof.
  let l := eval vm_compute in matrix3 in change matrix3 with l.
  repeat (apply Forall_cons; [reflexivity | ]). apply Forall_nil.
Qed.

Lemma matrix4_stable : Forall stable matrix4.
Proof.
  let l := eval vm_compute in matrix4 in change matrix4 with l.
  repeat (apply Forall_cons; [reflexivity | ]). apply Forall_nil.
Qed.

Lemma clone_copies_stable_cells_witness : Mat3x3.clone matrix3 = matrix3.
Proof.
  apply (clone_copies_stable_cells 3 matrix3).
  - reflexivity.
  - exact matrix3_stable.
Defined.

(** A copy reads a [NaN] cell and a [-0] cell as 0. *)
Example clone_changes_nan_and_negative_zero :
  Mat3x3.clone [nan; -0; 1;  0; 0; 0;  0; 0; 0] = [0; 0; 1;  0; 0; 0;  0; 0; 0].
Proof. reflexivity. Qed.

(** X6.  [transpose(m)] puts in the cell [(i, j)] the cell [(j, i)] of a
    copy of [m]: the value [m[j * n + i] || 0], stored twice. *)
Theorem transpose_cells (m : Float32Array.t) (i j : nat) :
  (List.length m = 9%nat -> (i < 3)%nat -> (j < 3)%nat ->
   nth_error (Mat3x3.transpose m) (i * 3 + j)
     = Some (fround (fround (or_else (nth_error m (j * 3 + i)) 0)))) /\
  (List.length m = 16%nat -> (i < 4)%nat -> (j < 4)%nat ->
   nth_error (Mat4x4.transpose m) (i * 4 + j)
     = Some (fround (fround (or_else (nth_error m (j * 4 + i)) 0)))).
Proof.
  split; intros Hlen Hi Hj.
  - explode m.
    destruct i as [ | [ | [ | i]]]; [ | | | lia];
      (destruct j as [ | [ | [ | j]]]; [ | | | lia]);
      cbv - [fround or_else]; reflexivity.
  - explode m.
    destruct i as [ | [ | [ | [ | i]]]]; [ | | | | lia];
      (destruct j as [ | [ | [ | [ | j]]]]; [ | | | | lia]);
      cbv - [fround or_else]; reflexivity.
Qed.

Lemma transpose_cells_witness :
  nth_error (Mat3x3.transpose matrix3) (0 * 3 + 2)
    = Some (fround (fround (or_else (nth_error matrix3 (2 * 3 + 0)) 0))).
Proof.
  apply (proj1 (transpose_cells matrix3 0 2)); [reflexivity | lia | lia].
Defined.

(** X7.  On a matrix of stable cells, transposing twice gives the matrix
    back. *)
Theorem transpose_involution (m : Float32Array.t) :
  Forall stable m ->
  (List.length m = 9%nat -> Mat3x3.transpose (Mat3x3.transpose m) = m) /\
  (List.length m = 16%nat -> Mat4x4.transpose (Mat4x4.transpose m) = m).
Proof.
  intros Hst. split; intros Hlen.
  - matrix_cells m. reflexivity.
  - matrix_cells m. reflexivity.
Qed.

Lemma transpose_involution_witness :
  Mat3x3.transpose (Mat3x3.transpose matrix3) = matrix3 /\
  Mat4x4.transpose (Mat4x4.transpose matrix4) = matrix4.
Proof.
  split.
  - apply (proj1 (transpose_involution matrix3 matrix3_stable)). reflexivity.
  - apply (proj2 (transpose_involution matrix4 matrix4_stable)). reflexivity.
Defined.

(** X8.  [rotate(m, true)] puts in the cell [(i, j)] the cell
    [(n - 1 - j, i)] of a copy of [m], and [rotate(m, false)] the cell
    [(j, n - 1 - i)]. *)
Theorem rotate_cells (m : Float32Array.t) (i j : nat) :
  (List.length m = 9%nat -> (i < 3)%nat -> (j < 3)%nat ->
   nth_error (Mat3x3.rotate m true) (i * 3 + j)
     = Some (fround (fround (or_else (nth_error m ((2 - j) * 3 + i)) 0))) /\
   nth_error (Mat3x3.rotate m false) (i * 3 + j)
     = Some (fround (fround (or_else (nth_error m (j * 3 + (2 - i))) 0)))) /\
  (List.length m = 16%nat -> (i < 4)%nat -> (j < 4)%nat ->
   nth_error (Mat4x4.rotate m true) (i * 4 + j)
     = Some (fround (fround (or_else (nth_error m ((3 - j) * 4 + i)) 0))) /\
   nth_error (Mat4x4.rotate m false) (i * 4 + j)
     = Some (fround (fround (or_else (nth_error m (j * 4 + (3 - i))) 0)))).
Proof.
  split; intros Hlen Hi Hj.
  - explode m.
    destruct i as [ | [ | [ | i]]]; [ | | | lia];
      (destruct j as [ | [ | [ | j]]]; [ | | | lia]);
      cbv - [fround or_else]; split; reflexivity.
  - explode m.
    destruct i as [ | [ | [ | [ | i]]]]; [ | | | | lia];
      (destruct j as [ | [ | [ | [ | j]]]]; [ | | | | lia]);
      cbv - [fround or_else]; split; reflexivity.
Qed.

Lemma rotate_cells_witness :
  nth_error (Mat3x3.rotate matrix3 true) (0 * 3 + 1)
    = Some (fround (fround (or_else (nth_error matrix3 ((2 - 1) * 3 + 0)) 0))) /\
  nth_error (Mat3x3.rotate matrix3 false) (0 * 3 + 1)
    = Some (fround (fround (or_else (nth_error matrix3 (1 * 3 + (2 - 0))) 0))).
Proof.
  apply (proj1 (rotate_cells matrix3 0 1)); [reflexivity | lia | lia].
Defined.

(** X9.  On a matrix of stable cells, a clockwise rotation followed by a
    counter-clockwise one (or the reverse) gives the matrix back, and so
    do four clockwise rotations. *)
Theorem rotate_round_trip (m : Float32Array.t) :
  Forall stable m ->
  (List.length m = 9%nat ->
     Mat3x3.rotate (Mat3x3.rotate m true) false = m /\
     Mat3x3.rotate (Mat3x3.rotate m false) true = m /\
     Mat3x3.rotate (Mat3x3.rotate (Mat3x3.rotate (Mat3x3.rotate m true) true) true)
                   true = m) /\
  (List.length m = 16%nat ->
     Mat4x4.rotate (Mat4x4.rotate m true) false = m /\
     Mat4x4.rotate (Mat4x4.rotate m false) true = m /\
     Mat4x4.rotate (Mat4x4.rotate (Mat4x4.rotate (Mat4x4.rotate m true) true) true)
                   true = m).
Proof.
  intros Hst. split; intros Hlen.
  - matrix_cells m. repeat split.
  - matrix_cells m. repeat split.
Qed.

Lemma rotate_round_trip_witness :
  Mat3x3.rotate (Mat3x3.rotate matrix3 true) false = matrix3 /\
  Mat3x3.rotate (Mat3x3.rotate matrix3 false) true = matrix3 /\
  Mat3x3.rotate (Mat3x3.rotate (Mat3x3.rotate (Mat3x3.rotate matrix3 true) true) true)
                true = matrix3.
Proof.
  apply (proj1 (rotate_round_trip matrix3 matrix3_stable)). reflexivity.
Defined.

Lemma mapi_length f m i : List.length (Float32Array.mapi f m i) = List.length m.
Proof. revert i; induction m; intros i; simpl; auto. Qed.

Lemma mapi_nth f m : forall i k,
  nth_error (Float32Array.mapi f m i) k
  = option_map (fun val => fround (f val (i + k)%nat)) (nth_error m k).
Proof.
  induction m as [ | a m IH]; intros i [ | k]; simpl; try reflexivity.
  - now rewrite Nat.add_0_r.
  - rewrite IH. now replace (S i + k)%nat with (i + S k)%nat by lia.
Qed.

(** X10.  [add], [sub] and [multiplyScalar] check no size: the result has
    the cells of the first matrix; a cell that the second matrix has too
    is the rounded sum or difference, and a cell that it lacks is [NaN]. *)
Theorem add_sub_unchecked (m1 m2 : Float32Array.t) (s : float) :
  List.length (add m1 m2) = List.length m1 /\
  List.length (sub m1 m2) = List.length m1 /\
  List.length (multiplyScalar m1 s) = List.length m1 /\
  (forall k a, nth_error m1 k = Some a ->
     nth_error (multiplyScalar m1 s) k = Some (fround (a * s))) /\
  (forall k a b, nth_error m1 k = Some a -> nth_error m2 k = Some b ->
     nth_error (add m1 m2) k = Some (fround (a + b)) /\
     nth_error (sub m1 m2) k = Some (fround (a - b))) /\
  (forall k a, nth_error m1 k = Some a -> (List.length m2 <= k)%nat ->
     nth_error (add m1 m2) k = Some nan /\
     nth_error (sub m1 m2) k = Some nan).
Proof.
  unfold add, sub, multiplyScalar, Float32Array.map.
  split; [apply mapi_length | ]. split; [apply mapi_length | ].
  split; [apply mapi_length | ]. split; [ | split].
  - intros k a Ha. now rewrite mapi_nth, Ha.
  - intros k a b Ha Hb. rewrite !mapi_nth, Ha. cbn.
    unfold Float32Array.get. now rewrite Hb.
  - intros k a Ha Hk. rewrite !mapi_nth, Ha. cbn.
    unfold Float32Array.get.
    replace (nth_error m2 k) with (@None float)
      by (symmetry; now apply nth_error_None).
    cbn. now rewrite add_nan, sub_nan.
Qed.

Lemma add_sub_unchecked_witness :
  nth_error (Mat4x4.add matrix4 matrix3) 12 = Some nan /\
  nth_error (Mat4x4.sub matrix4 matrix3) 12 = Some nan.
Proof.
  destruct (add_sub_unchecked matrix4 matrix3 1) as [_ [_ [_ [_ [_ H]]]]].
  apply (H 12%nat 13); [reflexivity | vm_compute; lia].
Defined.

(** X11.  [translate(...args)] is the identity with its last column
    replaced, in every row, by [args[i] || 1]: an offset that is 0 or
    absent is stored as 1, and the last cell of a 4x4 translation, which
    [identity()] leaves at 0, is 1. *)
Theorem translate_cells (args : list float) :
  let t i := fround (or_else (nth_error args i) 1) in
  Mat3x3.translate args = [1; 0; t 0%nat;  0; 1; t 1%nat;  0; 0; t 2%nat] /\
  Mat4x4.translate args
    = [1; 0; 0; t 0%nat;  0; 1; 0; t 1%nat;  0; 0; 1; t 2%nat;  0; 0; 0; t 3%nat].
Proof. split; cbv - [fround or_else nth_error]; reflexivity. Qed.

(** A translation by (0, 0, 0) has the offsets (1, 1, 1). *)
Example translate_by_zero :
  Mat4x4.translate [0; 0; 0]
    = [1; 0; 0; 1;  0; 1; 0; 1;  0; 0; 1; 1;  0; 0; 0; 1].
Proof. reflexivity. Qed.

(** X12.  [multiplyVector] throws a [TypeError] when the vector does not
    have the dimension of the matrix family (a [Vector2] for a 4x4 matrix,
    a [Vector3] for a 3x3 one), and returns a vector of the type of its
    argument otherwise. *)
Theorem multiplyVector_dimensions (m : Float32Array.t) (v : Vector.t) :
  (List.length m = 16%nat ->
     (Vector.type v = D2 ->
        Mat4x4.multiplyVector m v
          = Throw mismatch) /\
     (Vector.type v = D3 ->
        exists r, Mat4x4.multiplyVector m v = Normal r /\ Vector.type r = D3)) /\
  (List.length m = 9%nat ->
     (Vector.type v = D3 ->
        Mat3x3.multiplyVector m v
          = Throw mismatch) /\
     (Vector.type v = D2 ->
        exists r, Mat3x3.multiplyVector m v = Normal r /\ Vector.type r = D2)).
Proof.
  split; intros Hm; split; intros Hv;
    unfold Mat4x4.multiplyVector, Mat3x3.multiplyVector, multiplyVector,
      Float32Array.length, Vector.components;
    rewrite Hm, Hv.
  - change (neq _ _) with true. reflexivity.
  - change (neq _ _) with false. cbv iota. eexists. split; reflexivity.
  - change (neq _ _) with true. reflexivity.
  - change (neq _ _) with false. cbv iota. eexists. split; reflexivity.
Qed.

Lemma multiplyVector_dimensions_witness :
  Mat4x4.multiplyVector matrix4 (Vector2 1 2 1) = Throw mismatch /\
  Mat3x3.multiplyVector matrix3 (Vector3 1 2 3 1) = Throw mismatch.
Proof.
  split.
  - apply (proj1 (proj1 (multiplyVector_dimensions matrix4 (Vector2 1 2 1))
                    eq_refl)).
    reflexivity.
  - apply (proj1 (proj2 (multiplyVector_dimensions matrix3 (Vector3 1 2 3 1))
                    eq_refl)).
    reflexivity.
Defined.

Lemma multiplyMatrix_returns (n : nat) (m1 m2 : Float32Array.t) :
  neq (Float32Array.length m1 / flength n) (Float32Array.length m2 / flength n)
    = false ->
  exists r, multiplyMatrix n m1 m2 = Normal r /\ List.length r = (n * n)%nat.
Proof.
  intros H. destruct (multiplyMatrix n m1 m2) as [r | e] eqn:E.
  - exists r. split; [reflexivity | ]. now apply length_multiplyMatrix in E.
  - revert E. unfold multiplyMatrix. rewrite H. discriminate.
Qed.

(** X13.  [multiplyMatrix] compares the sizes of its operands with each
    other only: a 3x3 and a 4x4 matrix make it throw a [TypeError], and
    two matrices of one size are multiplied by either family, [Mat4x4]
    returning 16 cells for two 3x3 matrices and [Mat3x3] 9 cells for two
    4x4 ones. *)
Theorem multiplyMatrix_sizes (m1 m2 : Float32Array.t) :
  (List.length m1 = 9%nat -> List.length m2 = 9%nat ->
     (exists r, Mat3x3.multiplyMatrix m1 m2 = Normal r /\ List.length r = 9%nat) /\
     (exists r, Mat4x4.multiplyMatrix m1 m2 = Normal r /\ List.length r = 16%nat)) /\
  (List.length m1 = 16%nat -> List.length m2 = 16%nat ->
     (exists r, Mat4x4.multiplyMatrix m1 m2 = Normal r /\ List.length r = 16%nat) /\
     (exists r, Mat3x3.multiplyMatrix m1 m2 = Normal r /\ List.length r = 9%nat)) /\
  (List.length m1 = 9%nat -> List.length m2 = 16%nat ->
     Mat3x3.multiplyMatrix m1 m2 = Throw mismatch /\
     Mat4x4.multiplyMatrix m1 m2 = Throw mismatch /\
     Mat3x3.multiplyMatrix m2 m1 = Throw mismatch /\
     Mat4x4.multiplyMatrix m2 m1 = Throw mismatch).
Proof.
  split; [ | split]; intros H1 H2.
  - split; apply multiplyMatrix_returns; unfold Float32Array.length;
      rewrite H1, H2; reflexivity.
  - split; apply multiplyMatrix_returns; unfold Float32Array.length;
      rewrite H1, H2; reflexivity.
  - unfold Mat3x3.multiplyMatrix, Mat4x4.multiplyMatrix, multiplyMatrix,
      Float32Array.length. rewrite H1, H2.
    repeat split; change (neq _ _) with true; reflexivity.
Qed.

Lemma multiplyMatrix_sizes_witness :
  Mat3x3.multiplyMatrix matrix3 matrix4 = Throw mismatch /\
  Mat4x4.multiplyMatrix matrix3 matrix4 = Throw mismatch /\
  Mat3x3.multiplyMatrix matrix4 matrix3 = Throw mismatch /\
  Mat4x4.multiplyMatrix matrix4 matrix3 = Throw mismatch.
Proof.
  apply (proj2 (proj2 (multiplyMatrix_sizes matrix3 matrix4))); reflexivity.
Defined.

(** ** The parser and the mesh *)

Section ObjectLemmas.
Context {V : Type}.

Lemma define_names (ps : list (string * V)) (key : string) (v : V) :
  (forall k, In k (map fst (JsObject.define ps key v))
             <-> k = key \/ In k (map fst ps)) /\
  (NoDup (map fst ps) -> NoDup (map fst (JsObject.define ps key v))).
Proof.
  induction ps as [ | [k0 w] ps [IH1 IH2]]; cbn [JsObject.define map fst].
  - split.
    + intros k. cbn. intuition congruence.
    + intros _. repeat constructor. intros [].
  - destruct (String.eqb_spec k0 key) as [-> | Hne]; cbn [map fst].
    + split; [intros k; cbn; intuition congruence | tauto].
    + split.
      * intros k. cbn [In]. rewrite IH1. intuition congruence.
      * intros Hnd. inversion Hnd as [ | ? ? Hnotin Hnd']; subst.
        constructor; [ | now apply IH2].
        rewrite IH1. intros [-> | Hin]; [now apply Hne | now apply Hnotin].
Qed.

Lemma define_values (P : V -> Prop) (ps : list (string * V)) (key : string) (v : V) :
  P v -> Forall (fun p => P (snd p)) ps ->
  Forall (fun p => P (snd p)) (JsObject.define ps key v).
Proof.
  intros Hv. induction 1 as [ | [k0 w] ps Hw Hps IH]; cbn [JsObject.define].
  - repeat constructor. exact Hv.
  - destruct (String.eqb k0 key); constructor; assumption.
Qed.

Lemma own_in (ps : list (string * V)) (key : string) :
  In key (map fst ps) -> exists v, JsObject.own ps key = Some v /\ In (key, v) ps.
Proof.
  induction ps as [ | [k0 w] ps IH]; cbn [map fst In JsObject.own]; [intros [] | ].
  destruct (String.eqb_spec k0 key) as [-> | Hne].
  - intros _. exists w. split; [reflexivity | now left].
  - intros [E | Hin]; [contradiction | ].
    destruct (IH Hin) as [v [H1 H2]]. exists v. split; [exact H1 | now right].
Qed.

Lemma own_not_in (ps : list (string * V)) (key : string) :
  ~ In key (map fst ps) -> JsObject.own ps key = None.
Proof.
  induction ps as [ | [k0 w] ps IH]; cbn [map fst In JsObject.own]; [reflexivity | ].
  intros Hn. destruct (String.eqb_spec k0 key) as [-> | Hne]; [tauto | ].
  apply IH. tauto.
Qed.

Lemma update_names (o : JsObject.t V) (key : string) (f : V -> V) :
  map fst (JsObject.properties (JsObject.update o key f))
    = map fst (JsObject.properties o).
Proof.
  unfold JsObject.update. cbn [JsObject.properties]. rewrite map_map.
  apply map_ext. intros [k v]. cbn. now destruct (String.eqb k key).
Qed.

Lemma get_update (o : JsObject.t V) (key k : string) (f : V -> V) :
  JsObject.get (JsObject.update o key f) k
    = if String.eqb key k then option_map f (JsObject.get o k)
      else JsObject.get o k.
Proof.
  unfold JsObject.get, JsObject.update. cbn [JsObject.properties].
  induction (JsObject.properties o) as [ | [k0 w] ps IH]; cbn [map JsObject.own fst snd].
  - now destruct (String.eqb key k).
  - destruct (String.eqb_spec k0 key) as [-> | Hne]; cbn [fst snd JsObject.own].
    + destruct (String.eqb_spec key k) as [-> | Hne']; [reflexivity | exact IH].
    + destruct (String.eqb_spec k0 k) as [-> | Hne'].
      * destruct (String.eqb_spec key k) as [-> | ]; [contradiction | reflexivity].
      * exact IH.
Qed.

Lemma insert_index_perm (n : Z) (key : string) (l : list (Z * string)) :
  Permutation (JsObject.insert_index n key l) ((n, key) :: l).
Proof.
  induction l as [ | [m k] l IH]; cbn [JsObject.insert_index]; [reflexivity | ].
  destruct (n <? m)%Z; [reflexivity | ].
  rewrite IH. apply perm_swap.
Qed.

Lemma keys_perm (o : JsObject.t V) :
  Permutation (JsObject.keys o) (map fst (JsObject.properties o)).
Proof.
  unfold JsObject.keys.
  induction (map fst (JsObject.properties o)) as [ | k names IH];
    cbn [fold_right filter]; [reflexivity | ].
  destruct (JsObject.array_index k) as [n | ].
  - rewrite insert_index_perm. cbn [map snd app]. now constructor.
  - rewrite <- Permutation_middle. now constructor.
Qed.

End ObjectLemmas.

Lemma parseLine_spec (i : string) (res : JsObject.t (list Row)) (item : string) :
  map fst (JsObject.properties (parseLine i res item))
    = map fst (JsObject.properties res) /\
  JsObject.prototype (parseLine i res item) = JsObject.prototype res /\
  forall k,
    JsObject.get (parseLine i res item) k
      = if String.eqb i k
        then option_map (fun rows => rows ++ rowsFor i [item]) (JsObject.get res k)
        else JsObject.get res k.
Proof.
  unfold parseLine, rowsFor. cbn [filter].
  destruct (JsString.startsWith item i); cbn [map].
  - rewrite update_names. repeat split. intros k. apply get_update.
  - repeat split. intros k. destruct (String.eqb i k); [ | reflexivity].
    destruct (JsObject.get res k); cbn; [now rewrite app_nil_r | reflexivity].
Qed.

Lemma parse_lines (i : string) (items : list string) :
  forall res : JsObject.t (list Row),
    let res' := fold_left (parseLine i) items res in
    map fst (JsObject.properties res') = map fst (JsObject.properties res) /\
    JsObject.prototype res' = JsObject.prototype res /\
    forall k,
      JsObject.get res' k
        = if String.eqb i k
          then option_map (fun rows => rows ++ rowsFor i items) (JsObject.get res k)
          else JsObject.get res k.
Proof.
  induction items as [ | item items IH]; intros res; cbn [fold_left].
  - repeat split. intros k. destruct (String.eqb i k); [ | reflexivity].
    destruct (JsObject.get res k); cbn; [now rewrite app_nil_r | reflexivity].
  - destruct (IH (parseLine i res item)) as [H1 [H2 H3]].
    destruct (parseLine_spec i res item) as [S1 [S2 S3]].
    cbv zeta. rewrite H1, H2, S1, S2.
    split; [reflexivity | ]. split; [reflexivity | ].
    intros k. rewrite H3, S3. destruct (String.eqb i k); [ | reflexivity].
    destruct (JsObject.get res k); cbn [option_map]; [ | reflexivity].
    rewrite <- app_assoc. f_equal. f_equal. unfold rowsFor. cbn [filter].
    now destruct (JsString.startsWith item i).
Qed.

Lemma parse_keys (items : list string) (ks : list string) :
  forall res : JsObject.t (list Row),
    NoDup ks ->
    let res' := fold_left (fun res i => fold_left (parseLine i) items res) ks res in
    map fst (JsObject.properties res') = map fst (JsObject.properties res) /\
    JsObject.prototype res' = JsObject.prototype res /\
    forall k,
      (In k ks ->
       JsObject.get res' k
         = option_map (fun rows => rows ++ rowsFor k items) (JsObject.get res k)) /\
      (~ In k ks -> JsObject.get res' k = JsObject.get res k).
Proof.
  induction ks as [ | i ks IH]; intros res Hnd; cbn [fold_left].
  - repeat split. intros [].
  - inversion Hnd as [ | ? ? Hi Hnd']; subst.
    destruct (parse_lines i items res) as [H1 [H2 H3]].
    destruct (IH (fold_left (parseLine i) items res) Hnd') as [H4 [H5 H6]].
    cbv zeta. rewrite H4, H5, H1, H2.
    split; [reflexivity | ]. split; [reflexivity | ].
    intros k. destruct (H6 k) as [Hin Hout]. split.
    + intros [-> | Hk].
      * rewrite (Hout Hi), H3. now rewrite String.eqb_refl.
      * rewrite (Hin Hk), H3.
        destruct (String.eqb_spec i k) as [-> | _]; [contradiction | reflexivity].
    + intros Hk. cbn [In] in Hk. rewrite Hout by tauto. rewrite H3.
      destruct (String.eqb_spec i k) as [-> | _]; [tauto | reflexivity].
Qed.

Lemma set_proto {V : Type} (o : JsObject.t V) (v : V) :
  JsObject.set o "__proto__"%string v = JsObject.mk (JsObject.properties o) (Some v).
Proof. reflexivity. Qed.

Lemma set_own {V : Type} (o : JsObject.t V) (key : string) (v : V) :
  key <> "__proto__"%string ->
  JsObject.set o key v
    = JsObject.mk (JsObject.define (JsObject.properties o) key v)
                  (JsObject.prototype o).
Proof.
  intros Hne. unfold JsObject.set.
  now destruct (String.eqb_spec key "__proto__"%string).
Qed.

Lemma parse_init (extracts : list string) :
  forall o : JsObject.t (list Row),
    let o' := fold_left (fun res key => JsObject.set res key []) extracts o in
    (forall k, In k (map fst (JsObject.properties o'))
               <-> In k (map fst (JsObject.properties o))
                   \/ (In k extracts /\ k <> "__proto__"%string)) /\
    (NoDup (map fst (JsObject.properties o))
     -> NoDup (map fst (JsObject.properties o'))) /\
    (Forall (fun p => snd p = []) (JsObject.properties o)
     -> Forall (fun p => snd p = []) (JsObject.properties o')) /\
    JsObject.prototype o'
      = if existsb (String.eqb "__proto__"%string) extracts then Some []
        else JsObject.prototype o.
Proof.
  induction extracts as [ | key extracts IH]; intros o; cbn [fold_left existsb].
  - repeat split; cbn; tauto.
  - destruct (IH (JsObject.set o key [])) as [H1 [H2 [H3 H4]]]. cbv zeta.
    rewrite H4. rewrite (String.eqb_sym "__proto__"%string key).
    destruct (String.eqb_spec key "__proto__"%string) as [-> | Hne].
    + rewrite set_proto in *. cbn [JsObject.properties JsObject.prototype orb] in *.
      split; [ | split; [exact H2 | split; [exact H3 | ]]].
      * intros k. rewrite H1. cbn [In]. intuition congruence.
      * now destruct (existsb _ extracts).
    + rewrite (set_own o key [] Hne) in *.
      cbn [JsObject.properties JsObject.prototype orb] in *.
      destruct (define_names (JsObject.properties o) key []) as [D1 D2].
      split; [ | split; [ | split; [ | reflexivity]]].
      * intros k. rewrite H1, D1. cbn [In]. intuition congruence.
      * intros Hnd. apply H2, D2, Hnd.
      * intros Hall. apply H3. now apply (define_values (fun v => v = [])).
Qed.

Lemma own_empty_rows (ps : list (string * list Row)) (key : string) :
  Forall (fun p => snd p = []) ps -> In key (map fst ps) ->
  JsObject.own ps key = Some [].
Proof.
  intros Hall Hin. destruct (own_in ps key Hin) as [v [Hv Hmem]].
  rewrite Forall_forall in Hall. specialize (Hall _ Hmem). cbn in Hall.
  now subst.
Qed.

(** What [PARSE_MESH_DATA] returns. *)
Lemma parse_result (data : string) (extracts : list string) :
  let res := PARSE_MESH_DATA data extracts in
  (forall key, In key (JsObject.keys res)
               <-> In key extracts /\ key <> "__proto__"%string) /\
  NoDup (JsObject.keys res) /\
  (forall key, In key extracts -> key <> "__proto__"%string ->
     JsObject.get res key = Some (rowsFor key (linesOf data))) /\
  (forall key rows, JsObject.get res key = Some rows ->
     Forall (fun row => List.length row = 3%nat) rows) /\
  JsObject.prototype res
    = if existsb (String.eqb "__proto__"%string) extracts then Some [] else None.
Proof.
  intros res.
  destruct (parse_init extracts JsObject.empty) as [I1 [I2 [I3 I4]]].
  set (o := fold_left (fun res key => JsObject.set res key []) extracts
              JsObject.empty) in *.
  assert (NoDup (JsObject.keys o)) as Hnd.
  { apply (Permutation_NoDup (Permutation_sym (keys_perm o))).
    apply I2. constructor. }
  destruct (parse_keys (linesOf data) (JsObject.keys o) o Hnd) as [P1 [P2 P3]].
  change (fold_left _ (JsObject.keys o) o) with res in P1, P2, P3.
  assert (forall key, In key (JsObject.keys res)
                      <-> In key extracts /\ key <> "__proto__"%string) as Hkeys.
  { intros key. split.
    - intros Hin. apply (Permutation_in _ (keys_perm res)) in Hin.
      rewrite P1 in Hin. apply I1 in Hin. cbn in Hin. tauto.
    - intros Hin. apply (Permutation_in _ (Permutation_sym (keys_perm res))).
      rewrite P1. apply I1. now right. }
  assert (forall key, In key extracts -> key <> "__proto__"%string ->
            JsObject.get res key = Some (rowsFor key (linesOf data))) as Hget.
  { intros key Hin Hne.
    assert (In key (map fst (JsObject.properties o))) as Hown
      by (apply I1; now right).
    destruct (P3 key) as [Hthere _]. rewrite Hthere.
    - unfold JsObject.get. rewrite (own_empty_rows _ key); [reflexivity | | exact Hown].
      apply I3. constructor.
    - apply (Permutation_in _ (Permutation_sym (keys_perm o))). exact Hown. }
  split; [exact Hkeys | ]. split.
  { apply (Permutation_NoDup (Permutation_sym (keys_perm res))).
    rewrite P1. apply I2. constructor. }
  split; [exact Hget | ]. split; [ | rewrite P2; exact I4].
  intros key rows Hrows.
  destruct (in_dec string_dec key (map fst (JsObject.properties res))) as [Hin | Hout].
  - rewrite P1 in Hin. apply I1 in Hin. destruct Hin as [[] | [Hin Hne]].
    rewrite (Hget key Hin Hne) in Hrows. injection Hrows as <-.
    unfold rowsFor. apply Forall_map. apply Forall_forall. intros item _.
    reflexivity.
  - unfold JsObject.get in Hrows. rewrite (own_not_in _ _ Hout) in Hrows.
    discriminate.
Qed.

(** X14.  [PARSE_MESH_DATA] returns an object whose keys are the requested
    keys other than ["__proto__"], each once, however often it was
    requested.  The property of such a key holds one row for every line
    that starts with the key, in the order of the lines and whatever
    follows the key on the line, and every row has exactly three numbers.
    A requested ["__proto__"] creates no property: the empty array assigned
    to it becomes the prototype and no line is read for it. *)
Theorem PARSE_MESH_DATA_rows (data : string) (extracts : list string) :
  let res := PARSE_MESH_DATA data extracts in
  (forall key, In key (JsObject.keys res)
               <-> In key extracts /\ key <> "__proto__"%string) /\
  NoDup (JsObject.keys res) /\
  (forall key, In key extracts -> key <> "__proto__"%string ->
     JsObject.get res key = Some (rowsFor key (linesOf data))) /\
  (forall key rows, JsObject.get res key = Some rows ->
     Forall (fun row => List.length row = 3%nat) rows) /\
  JsObject.prototype res
    = if existsb (String.eqb "__proto__"%string) extracts then Some [] else None.
Proof. apply parse_result. Qed.

(** A line that starts with ["vt"] or ["vn"] is read as a vertex, and a
    field that is missing is read as [NaN]. *)
Example parser_reads_by_prefix :
  PARSE_MESH_DATA (lines ["vt 1 2"; "v 3 4 5 6"]%string) ["v"%string]
    = JsObject.mk [("v"%string, [[1; 2; nan]; [3; 4; 5]])] None.
Proof. vm_compute. reflexivity. Qed.

(** A key requested twice is one property, and a key that is an array
    index is visited before the names. *)
Example parser_keys_of_an_object :
  JsObject.keys (PARSE_MESH_DATA (lines ["v 1 2 3"; "10 4 5 6"]%string)
                   ["v"; "10"; "v"; "9"; "__proto__"]%string)
    = ["9"; "10"; "v"]%string.
Proof. vm_compute. reflexivity. Qed.

Lemma nth_error_store_same {A : Type} (arr : list A) (i : nat) (x : A) :
  (i <= List.length arr)%nat -> nth_error (store arr i x) i = Some x.
Proof.
  revert i; induction arr as [ | hd tl IH]; intros [ | i] Hi; simpl in *;
    try reflexivity; try lia.
  apply IH. lia.
Qed.

Lemma nth_error_store_other {A : Type} (arr : list A) (i k : nat) (x : A) :
  (i <= List.length arr)%nat -> k <> i ->
  nth_error (store arr i x) k = nth_error arr k.
Proof.
  revert i k; induction arr as [ | hd tl IH]; intros [ | i] [ | k] Hi Hk;
    simpl in *; try reflexivity; try lia.
  - now destruct k.
  - apply IH; lia.
Qed.

Lemma store_same {A : Type} (arr : list A) (i : nat) (x : A) :
  nth_error arr i = Some x -> store arr i x = arr.
Proof.
  revert i; induction arr as [ | hd tl IH]; intros [ | i]; simpl;
    try discriminate.
  - now intros [= ->].
  - intros H. now rewrite IH.
Qed.

(** The constructor on the three vertices of a face. *)
Lemma new_Triangle_three (a b c : option Row) (col : Color.t) :
  Triangle.new [a; b; c] col =
    match a, b, c with
    | Some p0, Some p1, Some p2 =>
        Normal (Triangle.mk [vertexOf p0; vertexOf p1; vertexOf p2] col)
    | _, _, _ => Throw (TypeError "Cannot read properties of undefined")
    end.
Proof. destruct a, b, c; reflexivity. Qed.

Lemma updateFace_cases (face : Row) (i : nat) (this : MeshState) :
  match nth_error (faceColor this) i with
  | Some c =>
      match triangleOf this face c with
      | Some tri =>
          Mesh.updateFace face i this
            = (Normal tt, Mesh.set_triangles this (store (triangles this) i tri))
      | None =>
          Mesh.updateFace face i this
            = (Throw (TypeError "Cannot read properties of undefined"), this)
      end
  | None =>
      Mesh.updateFace face i this
        = (Throw (TypeError "Cannot read properties of undefined"), this)
  end.
Proof.
  unfold Mesh.updateFace, triangleOf. rewrite new_Triangle_three.
  destruct (nth_error (faceColor this) i) as [c | ];
    destruct (index (vertices this) (to_number (nth_error face 0) - 1)),
    (index (vertices this) (to_number (nth_error face 1) - 1)),
    (index (vertices this) (to_number (nth_error face 2) - 1)); reflexivity.
Qed.

Lemma faceOk_triangleOf (this : MeshState) (face : Row) (i : nat) :
  faceOk this face i = true <->
  exists c tri, nth_error (faceColor this) i = Some c /\
                triangleOf this face c = Some tri.
Proof.
  unfold faceOk, triangleOf.
  destruct (index (vertices this) (to_number (nth_error face 0) - 1)),
    (index (vertices this) (to_number (nth_error face 1) - 1)),
    (index (vertices this) (to_number (nth_error face 2) - 1)),
    (nth_error (faceColor this) i); split;
    try discriminate; try (intros [c [tri [H1 H2]]]; discriminate);
    try reflexivity.
  intros _. do 2 eexists. split; reflexivity.
Qed.

Lemma forEach_updateFace_content (fs : list Row) :
  forall (i : nat) (this this' : MeshState),
    (i <= List.length (triangles this))%nat ->
    forEach Mesh.updateFace fs i this = (Normal tt, this') ->
    this' = Mesh.set_triangles this (triangles this') /\
    (forall k face, nth_error fs k = Some face ->
       exists c tri,
         nth_error (faceColor this) (i + k) = Some c /\
         triangleOf this face c = Some tri /\
         nth_error (triangles this') (i + k) = Some tri) /\
    (forall k, (k < i \/ i + List.length fs <= k)%nat ->
       nth_error (triangles this') k = nth_error (triangles this) k).
Proof.
  induction fs as [ | face fs IH]; intros i this this' Hi; simpl.
  - intros [= <-]. split; [now destruct this | ]. split; [ | reflexivity].
    intros [ | k] face; discriminate.
  - pose proof (updateFace_cases face i this) as Hcase.
    destruct (nth_error (faceColor this) i) as [c | ] eqn:Hc;
      [ | rewrite Hcase; discriminate].
    destruct (triangleOf this face c) as [tri | ] eqn:Htri;
      [ | rewrite Hcase; discriminate].
    rewrite Hcase. intros Hrun. apply IH in Hrun.
    2:{ cbn. rewrite length_store by exact Hi. lia. }
    destruct Hrun as [Hframe [Hnew Hold]]. cbn in Hframe, Hnew, Hold.
    split; [rewrite Hframe at 1; reflexivity | ]. split.
    + intros [ | k] f Hf.
      * injection Hf as <-. exists c, tri. rewrite Nat.add_0_r.
        repeat split; try assumption.
        rewrite Hold by lia. now apply nth_error_store_same.
      * destruct (Hnew k f Hf) as [c' [tri' [H1 [H2 H3]]]].
        exists c', tri'. replace (i + S k)%nat with (S i + k)%nat by lia.
        repeat split; assumption.
    + intros k Hk. rewrite Hold by lia.
      apply nth_error_store_other; [exact Hi | lia].
Qed.

(** What [updateGeometry] leaves when it returns. *)
Lemma updateGeometry_triangles (this this' : MeshState) :
  Mesh.updateGeometry this = (Normal tt, this') ->
  this' = Mesh.set_triangles this (triangles this') /\
  (forall i face, nth_error (faces this) i = Some face ->
     exists c tri,
       nth_error (faceColor this) i = Some c /\
       triangleOf this face c = Some tri /\
       nth_error (triangles this') i = Some tri) /\
  (forall i, (List.length (faces this) <= i)%nat ->
     nth_error (triangles this') i = nth_error (triangles this) i).
Proof.
  intros H. apply forEach_updateFace_content in H; [ | lia].
  destruct H as [H1 [H2 H3]]. split; [exact H1 | ]. split.
  - exact H2.
  - intros i Hi. apply H3. right. exact Hi.
Qed.

(** X15.  When [updateGeometry] returns, nothing of the mesh but the
    triangle list has changed; the triangle at the index of a face is
    built from the three vertices the face names (counted from 1) and
    from the colour row at the same index; the triangles at the indices
    past the last face are the ones the list held before. *)
Theorem updateGeometry_content (this this' : MeshState) :
  Mesh.updateGeometry this = (Normal tt, this') ->
  this' = Mesh.set_triangles this (triangles this') /\
  (forall i face, nth_error (faces this) i = Some face ->
     exists c tri,
       nth_error (faceColor this) i = Some c /\
       triangleOf this face c = Some tri /\
       nth_error (triangles this') i = Some tri) /\
  (forall i, (List.length (faces this) <= i)%nat ->
     nth_error (triangles this') i = nth_error (triangles this) i).
Proof. apply updateGeometry_triangles. Qed.

Lemma updateGeometry_content_witness :
  exists c tri,
    nth_error (faceColor (state (meshFrom twoFaceSource))) 0 = Some c /\
    triangleOf (state (meshFrom twoFaceSource)) [1; 2; 3] c = Some tri /\
    nth_error (triangles (snd (Mesh.updateGeometry
                                 (state (meshFrom twoFaceSource))))) 0
      = Some tri.
Proof.
  destruct (updateGeometry_content (state (meshFrom twoFaceSource))
              (snd (Mesh.updateGeometry (state (meshFrom twoFaceSource)))))
    as [_ [H _]].
  - vm_compute. reflexivity.
  - apply (H 0%nat [1; 2; 3]). reflexivity.
Defined.

Lemma forEach_updateFace_throws (fs : list Row) :
  forall (i : nat) (this : MeshState) (k : nat) (face : Row),
    nth_error fs k = Some face -> faceOk this face (i + k) = false ->
    exists this',
      forEach Mesh.updateFace fs i this
        = (Throw (TypeError "Cannot read properties of undefined"), this').
Proof.
  induction fs as [ | f fs IH]; intros i this k face Hk Hbad.
  - destruct k; discriminate.
  - simpl. pose proof (updateFace_cases f i this) as Hcase.
    destruct (nth_error (faceColor this) i) as [c | ] eqn:Hc;
      [ | rewrite Hcase; eexists; reflexivity].
    destruct (triangleOf this f c) as [tri | ] eqn:Htri;
      [ | rewrite Hcase; eexists; reflexivity].
    rewrite Hcase. destruct k as [ | k].
    + exfalso. injection Hk as ->. rewrite Nat.add_0_r in Hbad.
      assert (faceOk this face i = true) as E
        by (apply faceOk_triangleOf; eauto).
      congruence.
    + apply (IH (S i) _ k face Hk).
      replace (S i + k)%nat with (i + S k)%nat by lia. exact Hbad.
Qed.

Lemma forEach_updateFace_returns (fs : list Row) :
  forall (i : nat) (this : MeshState),
    (forall k face, nth_error fs k = Some face -> faceOk this face (i + k) = true) ->
    exists this', forEach Mesh.updateFace fs i this = (Normal tt, this').
Proof.
  induction fs as [ | f fs IH]; intros i this Hok.
  - eexists. reflexivity.
  - simpl. pose proof (updateFace_cases f i this) as Hcase.
    assert (faceOk this f i = true) as E
      by (rewrite <- (Nat.add_0_r i); now apply Hok).
    apply faceOk_triangleOf in E. destruct E as [c [tri [Hc Htri]]].
    rewrite Hc, Htri in Hcase. rewrite Hcase.
    apply IH. intros k face Hk.
    replace (S i + k)%nat with (i + S k)%nat by lia.
    exact (Hok (S k) face Hk).
Qed.

(** X16.  [updateGeometry] returns when every face names three existing
    vertices and has a colour row at its index, and it throws a
    [TypeError] as soon as one face does not. *)
Theorem updateGeometry_outcome (this : MeshState) :
  ((forall i face, nth_error (faces this) i = Some face -> faceOk this face i = true) ->
   exists this', Mesh.updateGeometry this = (Normal tt, this')) /\
  (forall i face, nth_error (faces this) i = Some face -> faceOk this face i = false ->
   exists this',
     Mesh.updateGeometry this
       = (Throw (TypeError "Cannot read properties of undefined"), this')).
Proof.
  split.
  - intros H. apply forEach_updateFace_returns. exact H.
  - intros i face Hf Hbad. now apply (forEach_updateFace_throws _ 0 this i face).
Qed.

Lemma updateGeometry_outcome_witness :
  (exists this',
     Mesh.updateGeometry (state (meshFrom twoFaceSource)) = (Normal tt, this')) /\
  (exists this',
     Mesh.updateGeometry
       (Mesh.set_faces (state (meshFrom twoFaceSource)) [[1; 2; 7]])
       = (Throw (TypeError "Cannot read properties of undefined"), this')).
Proof.
  split.
  - apply (proj1 (updateGeometry_outcome (state (meshFrom twoFaceSource)))).
    assert (faces (state (meshFrom twoFaceSource)) = [[1; 2; 3]; [2; 4; 3]]) as E
      by (vm_compute; reflexivity).
    intros i face Hf. rewrite E in Hf.
    destruct i as [ | [ | i]]; cbn [nth_error] in Hf;
      [ | | destruct i; discriminate];
      injection Hf as <-; vm_compute; reflexivity.
  - apply (proj2 (updateGeometry_outcome
                    (Mesh.set_faces (state (meshFrom twoFaceSource)) [[1; 2; 7]]))
             0%nat [1; 2; 7]); reflexivity.
Defined.

Lemma forEach_updateFace_fixed (fs : list Row) :
  forall (i : nat) (this : MeshState),
    (forall k face, nth_error fs k = Some face ->
       exists c tri,
         nth_error (faceColor this) (i + k) = Some c /\
         triangleOf this face c = Some tri /\
         nth_error (triangles this) (i + k) = Some tri) ->
    forEach Mesh.updateFace fs i this = (Normal tt, this).
Proof.
  induction fs as [ | f fs IH]; intros i this H; simpl; [reflexivity | ].
  destruct (H 0%nat f eq_refl) as [c [tri [Hc [Htri Hnth]]]].
  rewrite Nat.add_0_r in Hc, Hnth.
  pose proof (updateFace_cases f i this) as Hcase.
  rewrite Hc, Htri in Hcase. rewrite Hcase, (store_same _ _ _ Hnth).
  replace (Mesh.set_triangles this (triangles this)) with this
    by now destruct this.
  apply IH. intros k face Hk.
  replace (S i + k)%nat with (i + S k)%nat by lia. exact (H (S k) face Hk).
Qed.

(** X17.  [updateGeometry] is idempotent: called again on the mesh it
    returned with, it returns and leaves the mesh as it is. *)
Theorem updateGeometry_idempotent (this this' : MeshState) :
  Mesh.updateGeometry this = (Normal tt, this') ->
  Mesh.updateGeometry this' = (Normal tt, this').
Proof.
  intros H. apply updateGeometry_triangles in H. destruct H as [Hframe [Hnew _]].
  unfold Mesh.updateGeometry. apply forEach_updateFace_fixed.
  rewrite Hframe. cbn. exact Hnew.
Qed.

Lemma updateGeometry_idempotent_witness :
  Mesh.updateGeometry (state (meshFrom twoFaceSource))
    = (Normal tt, state (meshFrom twoFaceSource)).
Proof.
  apply (updateGeometry_idempotent (state (meshFrom twoFaceSource))).
  vm_compute. reflexivity.
Defined.

Lemma rowsOf_three (data : string) (extracts : list string) (key : string) :
  Forall (fun row => List.length row = 3%nat)
         (rowsOf (PARSE_MESH_DATA data extracts) key).
Proof.
  unfold rowsOf, lookup.
  destruct (JsObject.get (PARSE_MESH_DATA data extracts) key) as [rows | ] eqn:E;
    [ | constructor].
  exact (proj1 (proj2 (proj2 (proj2 (parse_result data extracts)))) key rows E).
Qed.

Lemma triangleOf_color (this : MeshState) (face c : Row) (tri : Triangle.t) :
  triangleOf this face c = Some tri ->
  Triangle.color tri
    = Color.mk (nth_error c 0) (nth_error c 1) (nth_error c 2)
               (Some (or_else (nth_error c 3) 1)).
Proof.
  unfold triangleOf.
  destruct (index (vertices this) (to_number (nth_error face 0) - 1)),
    (index (vertices this) (to_number (nth_error face 1) - 1)),
    (index (vertices this) (to_number (nth_error face 2) - 1));
    try discriminate.
  now intros [= <-].
Qed.

(** X18.  A mesh that the constructor returns has no [update] function
    and as many triangles as faces; the triangle at the index of a face is
    the one built from that face and the colour row at the same index;
    and the alpha of every triangle is 1, because the parser never reads a
    fourth field. *)
Theorem new_Mesh_postcondition (src : string) (m : Mesh) :
  Mesh.new src = Normal m ->
  update m = None /\
  List.length (triangles (state m)) = List.length (faces (state m)) /\
  (forall i face, nth_error (faces (state m)) i = Some face ->
     exists c tri,
       nth_error (faceColor (state m)) i = Some c /\
       triangleOf (state m) face c = Some tri /\
       nth_error (triangles (state m)) i = Some tri) /\
  Forall (fun tri => Color.a (Triangle.color tri) = Some 1) (triangles (state m)).
Proof.
  unfold Mesh.new.
  set (data := Mesh.parseWaveFront src ["v"; "f"; "c"]%string).
  fold (rowsOf data "v") (rowsOf data "f") (rowsOf data "c").
  set (this := mkMeshState _ _ _ _ _ _ _ _ _ _ _).
  destruct (Mesh.updateGeometry this) as [[[] | e] this'] eqn:E; [ | discriminate].
  intros [= <-]. cbn [state update].
  pose proof (updateGeometry_length _ _ E) as Hlen.
  pose proof (updateGeometry_triangles _ _ E) as [Hframe [Hnew _]].
  assert (faces this' = faces this /\ faceColor this' = faceColor this
          /\ vertices this' = vertices this) as [Hf [Hc Hv]]
    by (rewrite Hframe; repeat split).
  assert (forall face c, triangleOf this' face c = triangleOf this face c) as Ht
    by (intros; unfold triangleOf; now rewrite Hv).
  split; [reflexivity | ].
  split; [rewrite Hlen, Hf;
          change (List.length (triangles this)) with 0%nat; lia | ].
  split.
  - intros i face Hi. rewrite Hf in Hi. rewrite Hc.
    destruct (Hnew i face Hi) as [c [tri [H1 [H2 H3]]]].
    exists c, tri. rewrite Ht. repeat split; assumption.
  - apply Forall_forall. intros tri Hin.
    apply In_nth_error in Hin. destruct Hin as [i Hi].
    assert (i < List.length (faces this))%nat as Hlt.
    { assert (i < List.length (triangles this'))%nat
        by (apply nth_error_Some; congruence).
      rewrite Hlen in H.
      change (List.length (triangles this)) with 0%nat in H. lia. }
    destruct (nth_error (faces this) i) as [face | ] eqn:Hface;
      [ | apply nth_error_None in Hface; lia].
    destruct (Hnew i face Hface) as [c [tri' [H1 [H2 H3]]]].
    rewrite Hi in H3. injection H3 as <-.
    assert (List.length c = 3%nat) as Hc3.
    { pose proof (rowsOf_three src ["v"; "f"; "c"]%string "c"%string) as Hrows.
      rewrite Forall_forall in Hrows. apply Hrows.
      apply (nth_error_In _ i). exact H1. }
    rewrite (triangleOf_color _ _ _ _ H2). cbn [Color.a].
    replace (nth_error c 3) with (@None float)
      by (symmetry; apply nth_error_None; lia).
    reflexivity.
Qed.

Lemma new_Mesh_postcondition_witness :
  List.length (triangles (state (meshFrom twoFaceSource)))
    = List.length (faces (state (meshFrom twoFaceSource))) /\
  Forall (fun tri => Color.a (Triangle.color tri) = Some 1)
         (triangles (state (meshFrom twoFaceSource))).
Proof.
  destruct (new_Mesh_postcondition twoFaceSource (meshFrom twoFaceSource))
    as [_ [H1 [_ H2]]].
  - vm_compute. reflexivity.
  - split; assumption.
Defined.

(** ** The triangle constructor *)

Lemma forEach_construct_vectors (vs : list Vector.t) :
  forall acc : list Vector.t,
    forEach
      (fun p i (acc : list Vector.t) =>
         match p with
         | Triangle.VVector v =>
             (Normal tt,
              store acc i (match Vector.type v with
                           | D3 => v
                           | D2 => Vector3 0 0 0 1
                           end))
         | Triangle.VRow p =>
             (Normal tt,
              store acc i (Vector3 (default (nth_error p 0) 0)
                                   (default (nth_error p 1) 0)
                                   (default (nth_error p 2) 0) 1))
         | Triangle.VUndefined =>
             (Throw (TypeError "Cannot read properties of undefined"), acc)
         end)
      (map Triangle.VVector vs) (List.length acc) acc
    = (Normal tt, acc ++ map keepVector3 vs).
Proof.
  induction vs as [ | v vs IH]; intros acc; cbn [map forEach].
  - now rewrite app_nil_r.
  - rewrite store_at_length.
    replace (S (List.length acc))
      with (List.length (acc ++ [keepVector3 v]))
      by (rewrite length_app; cbn; lia).
    fold (keepVector3 v). rewrite IH. now rewrite <- app_assoc.
Qed.

(** X23.  [Triangle.clone] never throws; the clone has the colour of the
    triangle and, for every vertex that is a [Vector3], that vertex (any
    other vector object is replaced by the zero vector): the clone of a
    triangle of [Vector3] vertices is equal to it. *)
Theorem clone_Triangle (tri : Triangle.t) :
  Triangle.clone tri
    = Normal (Triangle.mk (map keepVector3 (Triangle.vertices tri))
                          (Triangle.color tri)) /\
  (Forall (fun v => Vector.type v = D3) (Triangle.vertices tri) ->
   Triangle.clone tri = Normal tri).
Proof.
  assert (Triangle.clone tri
    = Normal (Triangle.mk (map keepVector3 (Triangle.vertices tri))
                          (Triangle.color tri))) as H.
  { unfold Triangle.clone, Triangle.construct.
    pose proof (forEach_construct_vectors (Triangle.vertices tri) []) as E.
    cbn [List.length app] in E. rewrite E. reflexivity. }
  split; [exact H | ]. intros Hd3. rewrite H. clear H. f_equal.
  destruct tri as [vs col]. cbn in *. f_equal.
  induction Hd3 as [ | v vs Hv _ IH]; cbn [map]; [reflexivity | ].
  unfold keepVector3 at 1. rewrite Hv. f_equal. exact IH.
Qed.

Lemma clone_Triangle_witness :
  Triangle.clone
    (Triangle.mk [Vector3 0 0 0 1; Vector3 1 0 0 1; Vector3 0 1 0 1] Color.empty)
  = Normal
      (Triangle.mk [Vector3 0 0 0 1; Vector3 1 0 0 1; Vector3 0 1 0 1] Color.empty).
Proof.
  apply (proj2 (clone_Triangle
                  (Triangle.mk [Vector3 0 0 0 1; Vector3 1 0 0 1; Vector3 0 1 0 1]
                               Color.empty))).
  repeat constructor.
Defined.

(** On rows, the general constructor is the constructor of the mesh. *)
Lemma construct_rows (verts : list (option Row)) (c : Color.t) :
  Triangle.construct
    (map (fun p => match p with
                   | Some p => Triangle.VRow p
                   | None => Triangle.VUndefined
                   end) verts) c
  = Triangle.new verts c.
Proof.
  unfold Triangle.construct, Triangle.new.
  match goal with
  | |- (let (_, _) := forEach ?b1 ?l1 _ _ in _)
       = (let (_, _) := forEach ?b2 ?l2 _ _ in _) =>
      enough (forall acc i, forEach b1 l1 i acc = forEach b2 l2 i acc) as E
        by (rewrite E; reflexivity)
  end.
  induction verts as [ | [p | ] verts IH]; intros acc i; cbn [map forEach];
    try reflexivity.
  apply IH.
Qed.

(** ** The scene *)

Lemma get_set_other (m : Float32Array.t) (k k' : nat) (a : float) :
  k <> k' -> nth_error (Float32Array.set m k a) k' = nth_error m k'.
Proof.
  revert k k'; induction m as [ | hd tl IH]; intros [ | k] [ | k'] H; simpl;
    try reflexivity; try congruence.
  apply IH. congruence.
Qed.

Lemma get_set_same (m : Float32Array.t) (k : nat) (a : float) :
  (k < List.length m)%nat -> nth_error (Float32Array.set m k a) k = Some (fround a).
Proof.
  revert k; induction m as [ | hd tl IH]; intros [ | k] H; simpl in *;
    try reflexivity; try lia.
  apply IH. lia.
Qed.

(** X22.  [updateProjectionMatrix] changes nothing of the scene but the
    projection matrix, keeps its size, and writes the cells 0, 3, 5, 7,
    10, 11 and 15 only; on a matrix of 16 cells the diagonal holds the
    rounded scale factors and a 1. *)
Theorem updateProjectionMatrix_frame (this : Scene)
    (left right bottom top near far : float) :
  let this' := Scene.updateProjectionMatrix this left right bottom top near far in
  this' = Scene.set_projectionMatrix this (projectionMatrix this') /\
  List.length (projectionMatrix this') = List.length (projectionMatrix this) /\
  (forall k, ~ In k [0; 3; 5; 7; 10; 11; 15]%nat ->
     nth_error (projectionMatrix this') k = nth_error (projectionMatrix this) k) /\
  (List.length (projectionMatrix this) = 16%nat ->
   nth_error (projectionMatrix this') 0 = Some (fround (2 / (right - left))) /\
   nth_error (projectionMatrix this') 5 = Some (fround (2 / (top - bottom))) /\
   nth_error (projectionMatrix this') 10 = Some (fround (-2 / (far - near))) /\
   nth_error (projectionMatrix this') 15 = Some 1).
Proof.
  cbv zeta. unfold Scene.updateProjectionMatrix, Scene.set_projectionMatrix.
  cbn [projectionMatrix].
  split; [reflexivity | ]. split; [now rewrite !length_set | ]. split.
  - intros k Hk. cbn [In] in Hk.
    rewrite !get_set_other by (intros E; apply Hk; tauto). reflexivity.
  - intros Hlen.
    repeat split;
      repeat (rewrite get_set_other by discriminate);
      rewrite get_set_same by (rewrite ?length_set; lia); reflexivity.
Qed.

Lemma updateProjectionMatrix_frame_witness :
  nth_error (projectionMatrix (Scene.updateProjectionMatrix (Scene.new 300 150)
                                 0 2 0 2 0 2)) 0 = Some (fround (2 / (2 - 0))) /\
  nth_error (projectionMatrix (Scene.updateProjectionMatrix (Scene.new 300 150)
                                 0 2 0 2 0 2)) 5 = Some (fround (2 / (2 - 0))) /\
  nth_error (projectionMatrix (Scene.updateProjectionMatrix (Scene.new 300 150)
                                 0 2 0 2 0 2)) 10 = Some (fround (-2 / (2 - 0))) /\
  nth_error (projectionMatrix (Scene.updateProjectionMatrix (Scene.new 300 150)
                                 0 2 0 2 0 2)) 15 = Some 1.
Proof.
  destruct (updateProjectionMatrix_frame (Scene.new 300 150) 0 2 0 2 0 2)
    as [_ [_ [_ H]]].
  apply H. reflexivity.
Defined.

(** The scene after the records [rs] have been pushed, field by field. *)
Lemma fold_push_fields (rs : list PaintRecord.t) (scene : Scene) :
  fold_left Mesh.push rs scene
  = mkScene (ctx scene) (clearColor scene) (projectionMatrix scene)
      (objects scene) (toRaster scene ++ rs) (camera scene)
      (width scene) (height scene).
Proof.
  revert scene; induction rs as [ | r rs IH]; intros scene; simpl.
  - rewrite app_nil_r. now destruct scene.
  - rewrite IH. unfold Mesh.push. cbn. now rewrite <- app_assoc.
Qed.

(** Whatever its outcome, the loop over the triangles only pushes records. *)
Lemma forEach_processTriangle_pushes (this : MeshState) (m : Float32Array.t) :
  forall (tris : list Triangle.t) (i : nat) (scene : Scene),
    exists rs,
      snd (forEach (Mesh.processTriangle this m) tris i scene)
        = fold_left Mesh.push rs scene.
Proof.
  induction tris as [ | tri tris IH]; intros i scene.
  - exists []. reflexivity.
  - cbn [forEach].
    assert (exists rs, forall r s,
               Mesh.processTriangle this m tri i scene = (r, s) ->
               s = fold_left Mesh.push rs scene) as [rs0 Hstep].
    { unfold Mesh.processTriangle.
      destruct (Mesh.transform this m tri) as [[[] | e] tr];
        [ | exists []; now intros r s [= <- <-]].
      destruct (Mesh.faceNormal tr) as [n | e];
        [ | exists []; now intros r s [= <- <-]].
      destruct (to_number (Vector.z n) <? 0);
        [ | exists []; now intros r s [= <- <-]].
      destruct (Mesh.project scene tr) as [[[] | e] pr];
        [ | exists []; now intros r s [= <- <-]].
      eexists [_]. now intros r s [= <- <-]. }
    destruct (Mesh.processTriangle this m tri i scene) as [[[] | e] scene1] eqn:E.
    + rewrite (Hstep _ _ eq_refl).
      destruct (IH (S i) (fold_left Mesh.push rs0 scene)) as [rs Hrs].
      exists (rs0 ++ rs). rewrite Hrs. now rewrite fold_left_app.
    + exists rs0. cbn. exact (Hstep _ _ eq_refl).
Qed.

(** X19.  Whatever its outcome, [process] leaves the mesh as its [update]
    function left it and changes nothing of the scene but the render list,
    to which it only appends. *)
Theorem process_frame (host : Host) (this : Mesh) (scene : Scene) :
  let this' := fst (snd (Mesh.process host this scene)) in
  let scene' := snd (snd (Mesh.process host this scene)) in
  this' = Mesh.runUpdate this /\
  exists rs,
    scene' = mkScene (ctx scene) (clearColor scene) (projectionMatrix scene)
               (objects scene) (toRaster scene ++ rs) (camera scene)
               (width scene) (height scene).
Proof.
  unfold Mesh.process.
  destruct (Mesh.mRotate host (state (Mesh.runUpdate this)) scene) as [m | e].
  - destruct (forEach_processTriangle_pushes (state (Mesh.runUpdate this)) m
                (triangles (state (Mesh.runUpdate this))) 0 scene) as [rs Hrs].
    destruct (forEach _ _ _ _) as [r scene1]. cbn in *.
    split; [reflexivity | ]. exists rs. rewrite Hrs. apply fold_push_fields.
  - cbn. split; [reflexivity | ]. exists []. rewrite app_nil_r. now destruct scene.
Qed.

Lemma project_same (s1 s2 : Scene) (tr : list Vector.t) :
  projectionMatrix s1 = projectionMatrix s2 ->
  width s1 = width s2 -> height s1 = height s2 ->
  Mesh.project s1 tr = Mesh.project s2 tr.
Proof.
  destruct s1, s2; cbn. intros -> -> ->. reflexivity.
Qed.

Lemma forEach_processTriangle_same (this : MeshState) (m : Float32Array.t) :
  forall (tris : list Triangle.t) (i : nat) (s1 s2 : Scene),
    projectionMatrix s1 = projectionMatrix s2 ->
    width s1 = width s2 -> height s1 = height s2 ->
    exists r rs,
      forEach (Mesh.processTriangle this m) tris i s1
        = (r, fold_left Mesh.push rs s1) /\
      forEach (Mesh.processTriangle this m) tris i s2
        = (r, fold_left Mesh.push rs s2).
Proof.
  induction tris as [ | tri tris IH]; intros i s1 s2 Hpm Hw Hh.
  - exists (Normal tt), []. split; reflexivity.
  - cbn [forEach]. unfold Mesh.processTriangle at 1 3.
    destruct (Mesh.transform this m tri) as [[[] | e] tr];
      [ | exists (Throw e), []; split; reflexivity].
    destruct (Mesh.faceNormal tr) as [n | e];
      [ | exists (Throw e), []; split; reflexivity].
    destruct (to_number (Vector.z n) <? 0).
    + rewrite (project_same s1 s2 tr Hpm Hw Hh).
      destruct (Mesh.project s2 tr) as [[[] | e] pr];
        [ | exists (Throw e), []; split; reflexivity].
      match goal with
      | |- context [Mesh.push s1 ?rec] =>
          destruct (IH (S i) (Mesh.push s1 rec) (Mesh.push s2 rec) Hpm Hw Hh)
            as [r [rs [H1 H2]]];
          exists r, (rec :: rs)
      end.
      split; assumption.
    + apply IH; assumption.
Qed.

(** X20.  The rotation about the y axis is never applied: the [y] handed
    to [setRotation], of a mesh without [update] function or of the
    camera, changes neither the outcome of [process] nor the records it
    appends. *)
Theorem y_rotation_is_ignored (host : Host) (this : Mesh) (st : MeshState)
    (scene : Scene) (x y y' z : option float) :
  (let m1 := mkMesh (Mesh.setRotation st x y z) None in
   let m2 := mkMesh (Mesh.setRotation st x y' z) None in
   fst (Mesh.process host m1 scene) = fst (Mesh.process host m2 scene) /\
   snd (snd (Mesh.process host m1 scene)) = snd (snd (Mesh.process host m2 scene))) /\
  (let s1 := Scene.setRotation scene x y z in
   let s2 := Scene.setRotation scene x y' z in
   fst (Mesh.process host this s1) = fst (Mesh.process host this s2) /\
   toRaster (snd (snd (Mesh.process host this s1)))
     = toRaster (snd (snd (Mesh.process host this s2)))).
Proof.
  split.
  - cbv zeta. unfold Mesh.process. cbn [Mesh.runUpdate update state].
    change (Mesh.mRotate host (Mesh.setRotation st x y' z) scene)
      with (Mesh.mRotate host (Mesh.setRotation st x y z) scene).
    destruct (Mesh.mRotate host (Mesh.setRotation st x y z) scene) as [m | e];
      [ | split; reflexivity].
    change (Mesh.processTriangle (Mesh.setRotation st x y' z) m)
      with (Mesh.processTriangle (Mesh.setRotation st x y z) m).
    change (triangles (Mesh.setRotation st x y' z))
      with (triangles (Mesh.setRotation st x y z)).
    destruct (forEach _ _ _ _) as [r scene1]. split; reflexivity.
  - cbv zeta. unfold Mesh.process.
    change (Mesh.mRotate host (state (Mesh.runUpdate this))
              (Scene.setRotation scene x y' z))
      with (Mesh.mRotate host (state (Mesh.runUpdate this))
              (Scene.setRotation scene x y z)).
    destruct (Mesh.mRotate host _ _) as [m | e]; [ | split; reflexivity].
    destruct (forEach_processTriangle_same (state (Mesh.runUpdate this)) m
                (triangles (state (Mesh.runUpdate this))) 0
                (Scene.setRotation scene x y z) (Scene.setRotation scene x y' z)
                eq_refl eq_refl eq_refl) as [r [rs [H1 H2]]].
    rewrite H1, H2. cbn [fst snd]. split; [reflexivity | ].
    rewrite !fold_push_fields. reflexivity.
Qed.

Lemma project_length (scene : Scene) (transformed projected : list Vector.t) :
  List.length (projectionMatrix scene) = 16%nat ->
  Forall (fun v => Vector.type v = D3) transformed ->
  Mesh.project scene transformed = (Normal tt, projected) ->
  List.length projected = List.length transformed.
Proof.
  intros Hm Hall. unfold Mesh.project.
  destruct (forEach_collect
              (fun tri i (projected : list Vector.t) =>
                 match Mat4x4.multiplyVector (projectionMatrix scene) tri with
                 | Normal p =>
                     let p := Vector.set p Cx (Vector.x p + 1) in
                     let p := Vector.set p Cy (Vector.y p + 1) in
                     let p := Vector.set p Cx (Vector.x p * (width scene * 0.5)) in
                     let p := Vector.set p Cy (Vector.y p * (height scene * 0.5)) in
                     (Normal tt, store projected i p)
                 | Throw e => (Throw e, projected)
                 end)
              (fun v => Vector.type v = D3)) with (arr := transformed)
    (acc := @nil Vector.t) as [out [H1 [H2 _]]].
  - intros a i acc Ha.
    destruct (multiplyVector_Vector3 (projectionMatrix scene) a Hm Ha)
      as [r [Hr Ht]].
    rewrite Hr. eexists. split; [reflexivity | exact Ht].
  - exact Hall.
  - cbn [List.length app] in H1. rewrite H1. now intros [= <-].
Qed.

(** The records of well-formed triangles have three vertices. *)
Lemma recordOf_three (this : MeshState) (scene : Scene) (m : Float32Array.t)
    (tri : Triangle.t) (r : PaintRecord.t) :
  List.length m = 16%nat -> List.length (projectionMatrix scene) = 16%nat ->
  wellFormedTriangle tri -> recordOf this scene m tri r ->
  List.length (PaintRecord.vertices r) = 3%nat.
Proof.
  intros Hm Hpm Hwf [tr [pr [Htr [Hpr ->]]]]. cbn.
  destruct (transform_normal this m tri Hm Hwf) as [tr' [Htr' [Hlen Hd3]]].
  rewrite Htr in Htr'. injection Htr' as <-.
  rewrite (project_length scene tr pr Hpm Hd3 Hpr). exact Hlen.
Qed.

Lemma Forall2_filter_Forall {A B : Type} (R : A -> B -> Prop) (P : A -> Prop)
    (Q : B -> Prop) (f : A -> bool) (l : list A) (l' : list B) :
  (forall a b, P a -> R a b -> Q b) -> Forall P l ->
  Forall2 R (filter f l) l' -> Forall Q l'.
Proof.
  intros H HP HR.
  assert (Forall P (filter f l)) as HPf.
  { apply Forall_forall. intros a Ha. apply filter_In in Ha.
    rewrite Forall_forall in HP. now apply HP. }
  induction HR as [ | a b la lb Hab _ IH]; constructor.
  - inversion HPf; subst. eapply H; eauto.
  - inversion HPf; subst. now apply IH.
Qed.

(** [process] on a well-formed mesh returns and pushes records of three
    vertices each. *)
Lemma process_returns (host : Host) (this : Mesh) (scene : Scene) :
  Forall wellFormedTriangle (triangles (state (Mesh.runUpdate this))) ->
  List.length (projectionMatrix scene) = 16%nat ->
  exists rs,
    Mesh.process host this scene
      = (Normal tt, (Mesh.runUpdate this, fold_left Mesh.push rs scene)) /\
    Forall (fun r => List.length (PaintRecord.vertices r) = 3%nat) rs.
Proof.
  intros Hwf Hpm.
  destruct (mRotate_normal host (state (Mesh.runUpdate this)) scene)
    as [m [Hrot Hm]].
  destruct (forEach_processTriangle_normal (state (Mesh.runUpdate this)) m Hm
              (triangles (state (Mesh.runUpdate this))) 0 scene Hwf Hpm)
    as [scene' Hrun].
  destruct (forEach_processTriangle (state (Mesh.runUpdate this)) m _ 0 scene
              scene scene' eq_refl Hrun) as [rs [-> Hrec]].
  exists rs. unfold Mesh.process. rewrite Hrot, Hrun. split; [reflexivity | ].
  eapply Forall2_filter_Forall; [ | exact Hwf | exact Hrec].
  intros tri r Htri Hr. exact (recordOf_three _ _ _ _ _ Hm Hpm Htri Hr).
Qed.

Lemma store_middle {A : Type} (pre : list A) (x y : A) (post : list A) :
  store (pre ++ x :: post) (List.length pre) y = pre ++ y :: post.
Proof. induction pre as [ | hd tl IH]; simpl; [reflexivity | now rewrite IH]. Qed.

Lemma forEach_processObject (host : Host) :
  forall (objs pre post : list Mesh) (scene : Scene),
    Forall (fun obj => Forall wellFormedTriangle
                         (triangles (state (Mesh.runUpdate obj)))) objs ->
    List.length (projectionMatrix scene) = 16%nat ->
    objects scene = pre ++ objs ++ post ->
    exists rs,
      forEach (Scene.processObject host) objs (List.length pre) scene
        = (Normal tt,
           mkScene (ctx scene) (clearColor scene) (projectionMatrix scene)
             (pre ++ map Mesh.runUpdate objs ++ post) (toRaster scene ++ rs)
             (camera scene) (width scene) (height scene)) /\
      Forall (fun r => List.length (PaintRecord.vertices r) = 3%nat) rs.
Proof.
  induction objs as [ | obj objs IH]; intros pre post scene Hwf Hpm Hobjs.
  - exists []. cbn. rewrite app_nil_r. split; [ | constructor].
    cbn in Hobjs. rewrite <- Hobjs. now destruct scene.
  - inversion Hwf as [ | ? ? Hobj Hwf']; subst.
    destruct (process_returns host obj scene Hobj Hpm) as [rs0 [Hrun Hrs0]].
    cbn [forEach]. unfold Scene.processObject at 1. rewrite Hrun.
    rewrite fold_push_fields. cbn [objects Scene.set_objects ctx clearColor
      projectionMatrix toRaster camera width height].
    rewrite Hobjs. cbn [app]. rewrite store_middle.
    unfold Scene.set_objects.
    cbn [ctx clearColor projectionMatrix toRaster camera width height].
    destruct (IH (pre ++ [Mesh.runUpdate obj]) post
                (mkScene (ctx scene) (clearColor scene) (projectionMatrix scene)
                   (pre ++ Mesh.runUpdate obj :: objs ++ post)
                   (toRaster scene ++ rs0) (camera scene) (width scene)
                   (height scene)) Hwf' Hpm) as [rs [Hrest Hrs]].
    { cbn. now rewrite <- app_assoc. }
    rewrite length_app in Hrest. cbn [List.length] in Hrest.
    rewrite Nat.add_1_r in Hrest.
    cbn [ctx clearColor projectionMatrix toRaster camera width height] in Hrest.
    rewrite Hrest.
    exists (rs0 ++ rs). rewrite <- !app_assoc. cbn. split; [reflexivity | ].
    apply Forall_app. split; assumption.
Qed.

Lemma paint_returns (tri : PaintRecord.t) (i : nat) (this : Scene) :
  List.length (PaintRecord.vertices tri) = 3%nat ->
  exists ops, Scene.paint tri i this = (Normal tt, Scene.draw this ops).
Proof.
  intros Hlen. unfold Scene.paint.
  destruct (PaintRecord.vertices tri) as [ | v0 [ | v1 [ | v2 [ | ]]]];
    try discriminate.
  cbn [nth_error].
  destruct (PaintRecord.showWireFrame tri || PaintRecord.fillShader tri).
  - eexists. unfold Scene.draw at 1. cbn [ctx clearColor projectionMatrix objects
      toRaster camera width height Scene.draw]. unfold Scene.draw.
    rewrite <- app_assoc. reflexivity.
  - eexists. reflexivity.
Qed.

Lemma forEach_paint (rs : list PaintRecord.t) :
  forall (i : nat) (this : Scene),
    Forall (fun r => List.length (PaintRecord.vertices r) = 3%nat) rs ->
    exists ops, forEach Scene.paint rs i this = (Normal tt, Scene.draw this ops).
Proof.
  induction rs as [ | r rs IH]; intros i this Hrs.
  - exists []. cbn. unfold Scene.draw. rewrite app_nil_r. now destruct this.
  - inversion Hrs as [ | ? ? Hr Hrs']; subst.
    destruct (paint_returns r i this Hr) as [ops0 H0].
    cbn [forEach]. rewrite H0.
    destruct (IH (S i) (Scene.draw this ops0) Hrs') as [ops H1].
    rewrite H1. exists (ops0 ++ ops). unfold Scene.draw. cbn.
    now rewrite <- app_assoc.
Qed.

(** [render] returns on a scene of distinct, well-formed meshes. *)
Lemma render_total (host : Host) (this : Scene) :
  Forall (fun obj => Forall wellFormedTriangle
                       (triangles (state (Mesh.runUpdate obj)))) (objects this) ->
  List.length (projectionMatrix this) = 16%nat ->
  exists ops,
    Scene.render host this
      = (Normal tt,
         mkScene (ctx this ++ ops) (clearColor this) (projectionMatrix this)
           (map Mesh.runUpdate (objects this)) [] (camera this)
           (width this) (height this)).
Proof.
  intros Hwf Hpm. unfold Scene.render.
  destruct (forEach_processObject host (objects this) [] []
              (Scene.set_toRaster this []) Hwf Hpm) as [rs [Hrun Hrs]].
  { cbn. now rewrite app_nil_r. }
  cbn [List.length] in Hrun.
  change (objects (Scene.set_toRaster this [])) with (objects this).
  rewrite Hrun. cbn [toRaster Scene.set_toRaster ctx clearColor projectionMatrix
    objects camera width height app].
  rewrite paintOrder_unchanged.
  match goal with
  | |- context [forEach Scene.paint rs 0 ?s] =>
      destruct (forEach_paint rs 0 s Hrs) as [ops Hpaint]; rewrite Hpaint
  end.
  exists ops. cbn. now rewrite app_nil_r.
Qed.





(** The mesh that was added twice has moved by 2. *)
Example update_runs_once_per_entry :
  Vector.x (position (state (updated 2 movingMesh))) = 2%float.
Proof. vm_compute. reflexivity. Qed.

(** The scene [s] with the object list replaced does what [s] does. *)
Lemma processTriangle_objects (this : MeshState) (m : Float32Array.t)
    (tri : Triangle.t) (i : nat) (s : Scene) (os : list Mesh) :
  Mesh.processTriangle this m tri i (Scene.set_objects s os)
    = (fst (Mesh.processTriangle this m tri i s),
       Scene.set_objects (snd (Mesh.processTriangle this m tri i s)) os).
Proof.
  unfold Mesh.processTriangle.
  destruct (Mesh.transform this m tri) as [[[] | e] tr]; [ | reflexivity].
  destruct (Mesh.faceNormal tr) as [n | e]; [ | reflexivity].
  destruct (to_number (Vector.z n) <? 0)%float; [ | reflexivity].
  change (Mesh.project (Scene.set_objects s os) tr) with (Mesh.project s tr).
  destruct (Mesh.project s tr) as [[[] | e] pr]; reflexivity.
Qed.

Lemma forEach_objects {A : Type}
    (body : A -> nat -> Scene -> completion unit * Scene) (os : list Mesh) :
  (forall a i s,
      body a i (Scene.set_objects s os)
        = (fst (body a i s), Scene.set_objects (snd (body a i s)) os)) ->
  forall (arr : list A) (i : nat) (s : Scene),
    forEach body arr i (Scene.set_objects s os)
      = (fst (forEach body arr i s),
         Scene.set_objects (snd (forEach body arr i s)) os).
Proof.
  intros Hbody arr; induction arr as [ | a arr IH]; intros i s; cbn [forEach].
  - reflexivity.
  - rewrite Hbody. destruct (body a i s) as [[[] | e] s1]; cbn [fst snd].
    + apply IH.
    + reflexivity.
Qed.

Lemma process_objects (host : Host) (this : Mesh) (s : Scene) (os : list Mesh) :
  Mesh.process host this (Scene.set_objects s os)
    = (fst (Mesh.process host this s),
       (fst (snd (Mesh.process host this s)),
        Scene.set_objects (snd (snd (Mesh.process host this s))) os)).
Proof.
  unfold Mesh.process.
  change (Mesh.mRotate host (state (Mesh.runUpdate this)) (Scene.set_objects s os))
    with (Mesh.mRotate host (state (Mesh.runUpdate this)) s).
  destruct (Mesh.mRotate host (state (Mesh.runUpdate this)) s) as [m | e];
    [ | reflexivity].
  rewrite (forEach_objects (Mesh.processTriangle (state (Mesh.runUpdate this)) m)
             os (fun tri i s => processTriangle_objects _ m tri i s os)).
  destruct (forEach _ _ _ s) as [r s1]. reflexivity.
Qed.

Lemma paint_objects (tri : PaintRecord.t) (i : nat) (s : Scene) (os : list Mesh) :
  Scene.paint tri i (Scene.set_objects s os)
    = (fst (Scene.paint tri i s), Scene.set_objects (snd (Scene.paint tri i s)) os).
Proof.
  unfold Scene.paint.
  destruct (PaintRecord.showWireFrame tri || PaintRecord.fillShader tri);
    [ | reflexivity].
  destruct (nth_error (PaintRecord.vertices tri) 0); [ | reflexivity].
  destruct (nth_error (PaintRecord.vertices tri) 1); [ | reflexivity].
  destruct (nth_error (PaintRecord.vertices tri) 2); reflexivity.
Qed.

Lemma process_keeps_objects (host : Host) (this : Mesh) (s : Scene) :
  objects (snd (snd (Mesh.process host this s))) = objects s.
Proof.
  unfold Mesh.process.
  destruct (Mesh.mRotate host (state (Mesh.runUpdate this)) s) as [m | e];
    [ | reflexivity].
  destruct (forEach_processTriangle_pushes (state (Mesh.runUpdate this)) m
              (triangles (state (Mesh.runUpdate this))) 0 s) as [rs Hrs].
  destruct (forEach _ _ _ _) as [r s1]. cbn in *.
  rewrite Hrs. now rewrite fold_push_fields.
Qed.

(** The loop of [render] over distinct mesh objects: by value and by
    reference. *)
Lemma forEach_processObject_shared (host : Host) :
  forall (objs pre post : list Mesh) (s s0 : Scene) (refs : list nat),
    objects s = pre ++ objs ++ post ->
    forEach (Shared.processObject host)
            (seq (List.length pre) (List.length objs)) (List.length pre)
            (Shared.mk (objects s) refs (Scene.set_objects s (objects s0)))
      = (fst (forEach (Scene.processObject host) objs (List.length pre) s),
         Shared.mk
           (objects (snd (forEach (Scene.processObject host) objs
                                  (List.length pre) s)))
           refs
           (Scene.set_objects
              (snd (forEach (Scene.processObject host) objs (List.length pre) s))
              (objects s0))).
Proof.
  induction objs as [ | obj objs IH]; intros pre post s s0 refs Hobjs.
  - reflexivity.
  - cbn [List.length seq forEach]. unfold Shared.processObject at 1.
    cbn [Shared.heap Shared.scene Shared.refs].
    assert (nth_error (objects s) (List.length pre) = Some obj) as Hnth.
    { rewrite Hobjs. rewrite nth_error_app2 by lia.
      now rewrite Nat.sub_diag. }
    rewrite Hnth, process_objects.
    unfold Scene.processObject at 1 3 5.
    destruct (Mesh.process host obj s) as [r [obj' s1]] eqn:Hrun.
    cbn [fst snd].
    assert (objects s1 = objects s) as Hsame.
    { pose proof (process_keeps_objects host obj s) as H.
      now rewrite Hrun in H. }
    rewrite Hsame.
    destruct r as [[] | e].
    + specialize (IH (pre ++ [obj']) post
                     (Scene.set_objects s1 (store (objects s) (List.length pre) obj'))
                     s0 refs).
      rewrite length_app in IH. cbn [List.length] in IH.
      rewrite Nat.add_1_r in IH. cbn [objects Scene.set_objects] in IH.
      rewrite <- IH.
      * reflexivity.
      * rewrite Hobjs. cbn [app]. rewrite store_middle.
        now rewrite <- app_assoc.
    + reflexivity.
Qed.

Lemma forEach_paint_keeps_objects (rs : list PaintRecord.t) :
  forall (i : nat) (s : Scene),
    objects (snd (forEach Scene.paint rs i s)) = objects s.
Proof.
  induction rs as [ | r rs IH]; intros i s; cbn [forEach]; [reflexivity | ].
  assert (objects (snd (Scene.paint r i s)) = objects s) as Hpaint.
  { unfold Scene.paint.
    destruct (PaintRecord.showWireFrame r || PaintRecord.fillShader r);
      [ | reflexivity].
    destruct (nth_error (PaintRecord.vertices r) 0); [ | reflexivity].
    destruct (nth_error (PaintRecord.vertices r) 1); [ | reflexivity].
    destruct (nth_error (PaintRecord.vertices r) 2); reflexivity. }
  destruct (Scene.paint r i s) as [[[] | e] s1]; cbn [snd] in *.
  - now rewrite IH.
  - exact Hpaint.
Qed.

(** X25.  For a scene whose object list holds distinct mesh objects,
    [render] with the meshes held by value and [render] with the meshes
    held by reference (the addresses [0] to [n - 1], each once) are the
    same run: the same completion, the same meshes afterwards and the same
    scene. *)
Theorem render_of_distinct_objects (host : Host) (this : Scene) :
  let refs := seq 0 (List.length (objects this)) in
  Shared.render host (Shared.mk (objects this) refs this)
    = (fst (Scene.render host this),
       Shared.mk (objects (snd (Scene.render host this))) refs
         (Scene.set_objects (snd (Scene.render host this)) (objects this))).
Proof.
  intros refs. unfold Shared.render, Scene.render.
  cbn [Shared.heap Shared.refs Shared.scene].
  pose proof (forEach_processObject_shared host (objects this) [] []
                (Scene.set_toRaster this []) this refs) as Hloop.
  cbn [List.length app] in Hloop.
  change (Scene.set_objects (Scene.set_toRaster this []) (objects this))
    with (Scene.set_toRaster this []) in Hloop.
  change (objects (Scene.set_toRaster this [])) with (objects this) in *.
  fold refs in Hloop. rewrite Hloop by (now rewrite app_nil_r).
  destruct (forEach (Scene.processObject host) (objects this) 0
              (Scene.set_toRaster this [])) as [[[] | e] s1];
    cbn [fst snd Shared.heap Shared.refs Shared.scene]; [ | reflexivity].
  change (toRaster (Scene.set_objects s1 (objects this))) with (toRaster s1).
  change (Scene.set_toRaster (Scene.set_objects s1 (objects this))
            (Scene.paintOrder (toRaster s1)))
    with (Scene.set_objects
            (Scene.set_toRaster s1 (Scene.paintOrder (toRaster s1)))
            (objects this)).
  change (toRaster (Scene.set_objects
                      (Scene.set_toRaster s1 (Scene.paintOrder (toRaster s1)))
                      (objects this)))
    with (toRaster (Scene.set_toRaster s1 (Scene.paintOrder (toRaster s1)))).
  rewrite (forEach_objects Scene.paint (objects this)
             (fun tri i s => paint_objects tri i s (objects this))).
  pose proof (forEach_paint_keeps_objects
                (toRaster (Scene.set_toRaster s1 (Scene.paintOrder (toRaster s1))))
                0 (Scene.set_toRaster s1 (Scene.paintOrder (toRaster s1))))
    as Hkeep.
  destruct (forEach Scene.paint _ 0
              (Scene.set_toRaster s1 (Scene.paintOrder (toRaster s1))))
    as [[[] | e] s2]; cbn [fst snd objects Scene.set_toRaster] in *;
    now rewrite Hkeep.
Qed.

Lemma meshCalls_ready (calls : list MeshCall) :
  forall m, meshReady m -> meshReady (fold_left meshCall calls m).
Proof.
  induction calls as [ | c calls IH]; intros m Hm; [exact Hm | ].
  cbn [fold_left]. apply IH. destruct c; exact Hm.
Qed.

Lemma new_Mesh_no_update (src : string) (m : Mesh) :
  Mesh.new src = Normal m -> update m = None.
Proof.
  unfold Mesh.new.
  destruct (Mesh.updateGeometry _) as [[[] | e] this']; [ | discriminate].
  now intros [= <-].
Qed.

Lemma runUpdate_no_update (m : Mesh) : update m = None -> Mesh.runUpdate m = m.
Proof. unfold Mesh.runUpdate. now intros ->. Qed.

Lemma builtMesh_ready (m : Mesh) : builtMesh m -> meshReady m.
Proof.
  intros [src [m0 [calls [Hnew ->]]]]. apply meshCalls_ready.
  pose proof (new_Mesh_no_update src m0 Hnew) as Hno.
  split; [exact Hno | ].
  apply new_Mesh_wellFormed in Hnew.
  now rewrite (runUpdate_no_update m0 Hno) in Hnew.
Qed.

Lemma sceneCalls_ready (calls : list SceneCall) :
  forall s, sceneReady s -> Forall builtCall calls ->
            sceneReady (fold_left sceneCall calls s).
Proof.
  induction calls as [ | c calls IH]; intros s Hs Hcalls; [exact Hs | ].
  inversion Hcalls as [ | ? ? Hc Hcalls']; subst.
  cbn [fold_left]. apply IH; [ | exact Hcalls'].
  destruct Hs as [Hpm Hobjs]. destruct c as [obj | x y z | l r b t n f].
  - destruct obj; try (split; assumption).
    split; [exact Hpm | ]. cbn. apply Forall_app. split; [exact Hobjs | ].
    constructor; [ | constructor]. apply builtMesh_ready. exact Hc.
  - split; assumption.
  - split; [ | exact Hobjs]. cbn [sceneCall].
    unfold Scene.updateProjectionMatrix, Scene.set_projectionMatrix.
    cbn [projectionMatrix]. now rewrite !length_set.
Qed.

Lemma map_runUpdate_ready (objs : list Mesh) :
  Forall meshReady objs -> map Mesh.runUpdate objs = objs.
Proof.
  induction 1 as [ | m objs [Hm _] _ IH]; cbn [map]; [reflexivity | ].
  now rewrite IH, (runUpdate_no_update m Hm).
Qed.

(** X24.  A scene made by the constructor and configured by any sequence
    of [add], [setRotation] and [updateProjectionMatrix] calls renders
    without throwing, provided the meshes added were made by the [Mesh]
    constructor and then moved, turned or scaled at will: [render] adds
    calls to the drawing context, leaves the render list empty and changes
    nothing else.  ([add] of a value that is no mesh throws and leaves the
    scene as it was.) *)
Theorem public_api_renders (host : Host) (w h : float) (calls : list SceneCall) :
  Forall builtCall calls ->
  let this := fold_left sceneCall calls (Scene.new w h) in
  exists ops,
    Scene.render host this
      = (Normal tt,
         mkScene (ctx this ++ ops) (clearColor this) (projectionMatrix this)
           (objects this) [] (camera this) (width this) (height this)).
Proof.
  intros Hcalls this.
  assert (sceneReady this) as [Hpm Hobjs].
  { apply sceneCalls_ready; [ | exact Hcalls].
    split; [apply new_Scene_projectionMatrix | constructor]. }
  destruct (render_total host this) as [ops Hrender]; [ | exact Hpm | ].
  - apply Forall_forall. intros m Hm. rewrite Forall_forall in Hobjs.
    destruct (Hobjs m Hm) as [Hno Hwf].
    now rewrite (runUpdate_no_update m Hno).
  - exists ops. rewrite Hrender. now rewrite (map_runUpdate_ready _ Hobjs).
Qed.

Lemma public_api_renders_witness :
  exists ops,
    Scene.render taylorHost
      (fold_left sceneCall
         [SetCameraRotation None None None;
          Add (JsMesh (fold_left meshCall
                         [SetScale (Some 2) (Some 2) (Some 2);
                          SetPosition (Some 1) None None]
                         (meshFrom cullSource)));
          Add (JsNumber 1)]
         (Scene.new 300 150))
    = (Normal tt,
       mkScene ([] ++ ops) None
         (projectionMatrix (Scene.new 300 150))
         [fold_left meshCall
            [SetScale (Some 2) (Some 2) (Some 2); SetPosition (Some 1) None None]
            (meshFrom cullSource)]
         [] (Camera.mk (Vector3 0 0 0 1) (Vector3 0 0 0 1)) 300 150).
Proof.
  apply (public_api_renders taylorHost 300 150
           [SetCameraRotation None None None;
            Add (JsMesh (fold_left meshCall
                           [SetScale (Some 2) (Some 2) (Some 2);
                            SetPosition (Some 1) None None]
                           (meshFrom cullSource)));
            Add (JsNumber 1)]).
  repeat constructor.
  exists cullSource, (meshFrom cullSource),
    [SetScale (Some 2) (Some 2) (Some 2); SetPosition (Some 1) None None].
  split; [vm_compute | ]; reflexivity.
Defined.
